(** * The [tfds build_croissant] command

    A shallow embedding of [tensorflow_datasets/scripts/cli/croissant.py]:
    the flag declarations of [add_parser_arguments], the handler installed
    by [register_subparser], and [prepare_croissant_builder], which
    normalises its arguments and delegates to the [CroissantBuilder]
    collaborator.

    Conventions.
    - A Python [str] is a [string]; text outside ASCII is read as its UTF-8
      bytes.
    - Python values that travel through the [mapping] parameter are [pyval].
    - Exceptions are values of [exn]; a computation is a function from a
      [state] to a [result] and a new [state].  The state holds the world
      the collaborator acts on and the chronological list of the calls the
      command made to code outside this file. *)

From Stdlib Require Import String Ascii List ZArith Bool Arith Lia.
From Stdlib Require Import DecimalString.
Import ListNotations.
Open Scope string_scope.

Set Warnings "-register-all".

(** ** Python values and exceptions *)

(** The values [json.loads] can produce, plus what the command itself can
    forward.  A float keeps its literal text: its numeric value plays no
    part in this command. *)
Inductive pyval : Type :=
| PyNone
| PyBool (b : bool)
| PyInt (z : Z)
| PyFloat (lit : string)
| PyStr (s : string)
| PyList (xs : list pyval)
| PyDict (kvs : list (string * pyval)).

(** Exceptions.  [JSONDecodeError doc] is the decoder's error on the
    document [doc] (its message and position are left out: the command
    never reads them); [ValueError msg cause] carries the [__cause__] set by
    [raise ... from]; [SystemExit] is what [argparse] raises on a rejected
    command line; [PyError cls msg] stands for every other exception
    class. *)
Inductive exn : Type :=
| JSONDecodeError (doc : string)
| ValueError (msg : string) (cause : option exn)
| SystemExit (code : Z)
| PyError (cls msg : string).

(** [isinstance(e, json.JSONDecodeError)]. *)
Definition is_JSONDecodeError (e : exn) : bool :=
  match e with
  | JSONDecodeError _ => true
  | _ => false
  end.

(** Truth value of an optional string: [None] and [''] are false. *)
Definition truthy_str (s : option string) : bool :=
  match s with
  | None => false
  | Some EmptyString => false
  | Some (String _ _) => true
  end.

(** Truth value of an optional sequence: [None] and [[]] are false. *)
Definition truthy_seq {A : Type} (xs : option (list A)) : bool :=
  match xs with
  | None => false
  | Some [] => false
  | Some (_ :: _) => true
  end.

(** The Python value of a [str | None] variable. *)
Definition pyval_of_optstr (s : option string) : pyval :=
  match s with
  | None => PyNone
  | Some s => PyStr s
  end.

(** [needle in haystack] on strings. *)
Fixpoint str_contains (needle haystack : string) : bool :=
  String.prefix needle haystack
  || match haystack with
     | EmptyString => false
     | String _ rest => str_contains needle rest
     end.

(** A dict whose values are all strings: the shape [dict[str, str]] the
    docstring of [prepare_croissant_builder] speaks of. *)
Definition is_flat_mapping (v : pyval) : bool :=
  match v with
  | PyDict kvs =>
      forallb (fun kv => match snd kv with PyStr _ => true | _ => false end) kvs
  | _ => false
  end.

(** ** The collaborator and the effect monad *)

(** Keyword arguments of the [CroissantBuilder] constructor, as the command
    passes them. *)
Record BuilderArgs : Type := mkBuilderArgs {
  jsonld : string;
  record_set_ids : option (list string);
  file_format : string;
  data_dir : string;
  mapping : pyval
}.

Inductive result (A : Type) : Type :=
| Return (a : A)
| Raise (e : exn).
Arguments Return {A} a.
Arguments Raise {A} e.

(** The collaborator: [tensorflow_datasets.core.dataset_builders.
    croissant_builder.CroissantBuilder], outside this file.  Both its
    constructor and [download_and_prepare] may act on the world and may
    raise. *)
Record Collaborator : Type := mkCollaborator {
  World : Type;
  Builder : Type;
  CroissantBuilder : BuilderArgs -> World -> result Builder * World;
  download_and_prepare : Builder -> World -> result unit * World
}.

(** [chr(uni)], as UTF-8 bytes. *)
Definition chr (uni : N) : string :=
  let byte (n : N) : ascii := ascii_of_N n in
  let cont (n : N) : ascii := ascii_of_N (128 + n mod 64)%N in
  if (uni <? 128)%N then String (byte uni) ""
  else if (uni <? 2048)%N then
    String (byte (192 + uni / 64)%N) (String (cont uni) "")
  else if (uni <? 65536)%N then
    String (byte (224 + uni / 4096)%N)
      (String (cont (uni / 64)%N) (String (cont uni) ""))
  else
    String (byte (240 + uni / 262144)%N)
      (String (cont (uni / 4096)%N)
         (String (cont (uni / 64)%N) (String (cont uni) ""))).

(** ** A decoder to run the command with

    [json.loads] belongs to the Python standard library, not to this
    repository: [prepare_croissant_builder] below takes the decoder as a
    parameter.  This module is the instance used to run the command on
    concrete text.  It follows [json/decoder.py] and [json/scanner.py]
    ([py_scanstring], [JSONObject], [JSONArray], [_scan_once], [decode]):
    which documents are accepted, and the value each denotes.  Recursion
    is by fuel; [loads] supplies more than the document can use
    ([loads_total]).  Two limits of the interpreter are not modelled: the
    recursion limit, which a deeply nested document exceeds, and the limit
    on the number of digits of an integer. *)
Module json.

Definition dquote : ascii := ascii_of_nat 34.
Definition backslash : ascii := ascii_of_nat 92.

(** What a scanner returns at some point of the document: a value and the
    text left after it, or a refusal.  [Malformed] is the decoder's own
    refusal, which [decode] reports as [JSONDecodeError]; [Raised e] is an
    exception of a conversion the scanner calls, which passes through the
    decoder as it is; [Exhausted] is the fuel running out. *)
Inductive scan (A : Type) : Type :=
| Scanned (a : A) (rest : string)
| Malformed
| Raised (e : exn)
| Exhausted.
Arguments Scanned {A} a rest.
Arguments Malformed {A}.
Arguments Raised {A} e.
Arguments Exhausted {A}.

(** [WHITESPACE]: runs of space, tab, line feed and carriage return. *)
Definition is_ws (c : ascii) : bool :=
  let n := nat_of_ascii c in
  ((n =? 32) || (n =? 9) || (n =? 10) || (n =? 13))%nat.

Fixpoint skip_ws (s : string) : string :=
  match s with
  | String c rest => if is_ws c then skip_ws rest else s
  | EmptyString => EmptyString
  end.

Definition is_digit (c : ascii) : bool :=
  let n := nat_of_ascii c in ((48 <=? n) && (n <=? 57))%nat.

(** The longest run of digits at the head of [s], and what follows. *)
Fixpoint span_digits (s : string) : string * string :=
  match s with
  | String c rest =>
      if is_digit c then
        let (ds, rest') := span_digits rest in (String c ds, rest')
      else (EmptyString, s)
  | EmptyString => (EmptyString, EmptyString)
  end.

(** [s[len(p):]] when [s.startswith(p)]. *)
Fixpoint strip_prefix (p s : string) : option string :=
  match p, s with
  | EmptyString, _ => Some s
  | String a p', String b s' =>
      if Ascii.eqb a b then strip_prefix p' s' else None
  | String _ _, EmptyString => None
  end.

(** *** Numbers: [NUMBER_RE]

    Three groups: an integer part (an optional minus sign, then a single
    zero or a digit other than zero followed by any digits), an optional
    fraction (a dot and at least one digit), an optional exponent ([e] or
    [E], an optional sign, at least one digit). *)

Definition match_integer (s : string) : option (string * string) :=
  let (sign, s1) :=
    match s with
    | String c r => if Ascii.eqb c "-" then ("-", r) else ("", s)
    | EmptyString => ("", s)
    end in
  match s1 with
  | String c r =>
      if Ascii.eqb c "0" then Some (sign ++ "0", r)
      else if is_digit c then
        let (ds, r') := span_digits r in Some (sign ++ String c ds, r')
      else None
  | EmptyString => None
  end.

Definition match_frac (s : string) : string * string :=
  match s with
  | String c r =>
      if Ascii.eqb c "." then
        match span_digits r with
        | (EmptyString, _) => ("", s)
        | (ds, r') => (String c ds, r')
        end
      else ("", s)
  | EmptyString => ("", s)
  end.

Definition match_exp (s : string) : string * string :=
  match s with
  | String c r =>
      if Ascii.eqb c "e" || Ascii.eqb c "E" then
        let (sign, r1) :=
          match r with
          | String d r' =>
              if Ascii.eqb d "-" || Ascii.eqb d "+"
              then (String d "", r') else ("", r)
          | EmptyString => ("", r)
          end in
        match span_digits r1 with
        | (EmptyString, _) => ("", s)
        | (ds, r2) => (String c (sign ++ ds), r2)
        end
      else ("", s)
  | EmptyString => ("", s)
  end.

(** [int(text)] for a run of decimal digits with an optional sign. *)
Fixpoint digits_value (acc : Z) (s : string) : Z :=
  match s with
  | String c rest =>
      digits_value (10 * acc + (Z.of_nat (nat_of_ascii c) - 48)) rest
  | EmptyString => acc
  end.

Definition parse_int (text : string) : Z :=
  match text with
  | String c rest =>
      if Ascii.eqb c "-" then - digits_value 0 rest else digits_value 0 text
  | EmptyString => 0
  end.

(** [NUMBER_RE.match]: the three groups and the text after the match. *)
Definition match_number (s : string)
    : option (string * string * string * string) :=
  match match_integer s with
  | None => None
  | Some (integer, r) =>
      let (frac, r1) := match_frac r in
      let (exp, r2) := match_exp r1 in
      Some (integer, frac, exp, r2)
  end.

(** [sys.get_int_max_str_digits()]: the interpreter converts no decimal
    text of more digits to an [int]. *)
Definition int_max_str_digits : nat := 4300.

(** [str(n)] for a natural number. *)
Definition decimal (n : nat) : string :=
  NilEmpty.string_of_uint (Nat.to_uint n).

(** The number of digits of an integer literal: its sign does not count. *)
Definition count_digits (text : string) : nat :=
  match text with
  | String c rest =>
      if Ascii.eqb c "-" then String.length rest else String.length text
  | EmptyString => 0
  end.

(** [int(text)], the default [parse_int]: a literal longer than the limit
    raises [ValueError]. *)
Definition int (text : string) : result Z :=
  if (int_max_str_digits <? count_digits text)%nat then
    Raise
      (ValueError
         ("Exceeds the limit (" ++ decimal int_max_str_digits
          ++ " digits) for integer string conversion: value has "
          ++ decimal (count_digits text)
          ++ " digits; use sys.set_int_max_str_digits() to increase the limit")
         None)
  else Return (parse_int text).

(** The number branch of [_scan_once]: [parse_float] when there is a
    fraction or an exponent, [parse_int] otherwise. *)
Definition scan_number (s : string) : option (scan pyval) :=
  match match_number s with
  | None => None
  | Some (integer, frac, exp, rest) =>
      match frac, exp with
      | EmptyString, EmptyString =>
          match int integer with
          | Return z => Some (Scanned (PyInt z) rest)
          | Raise e => Some (Raised e)
          end
      | _, _ => Some (Scanned (PyFloat (integer ++ frac ++ exp)) rest)
      end
  end.

(** *** Strings: [py_scanstring] *)

(** [STRINGCHUNK]: the content up to the first quote, backslash or
    control character (below U+0020), that terminator, and the text after
    it. *)
Fixpoint stringchunk (s : string) : option (string * ascii * string) :=
  match s with
  | String c rest =>
      if Ascii.eqb c dquote || Ascii.eqb c backslash
         || (nat_of_ascii c <? 32)%nat
      then Some (EmptyString, c, rest)
      else
        match stringchunk rest with
        | Some (content, t, rest') => Some (String c content, t, rest')
        | None => None
        end
  | EmptyString => None
  end.

Definition hex_value (c : ascii) : option N :=
  let n := N_of_ascii c in
  if (48 <=? n)%N && (n <=? 57)%N then Some (n - 48)%N
  else if (65 <=? n)%N && (n <=? 70)%N then Some (n - 55)%N
  else if (97 <=? n)%N && (n <=? 102)%N then Some (n - 87)%N
  else None.

(** [_decode_uXXXX]: four hexadecimal digits at the head of [s]. *)
Definition decode_uXXXX (s : string) : option (N * string) :=
  match s with
  | String a (String b (String c (String d rest))) =>
      match hex_value a, hex_value b, hex_value c, hex_value d with
      | Some x, Some y, Some z, Some w =>
          Some ((((x * 16 + y) * 16 + z) * 16 + w)%N, rest)
      | _, _, _, _ => None
      end
  | _ => None
  end.

(** [BACKSLASH]: the one-character escapes. *)
Definition unescape (esc : ascii) : option ascii :=
  let n := nat_of_ascii esc in
  if (n =? 34)%nat then Some dquote
  else if (n =? 92)%nat then Some backslash
  else if (n =? 47)%nat then Some "/"%char
  else if (n =? 98)%nat then Some (ascii_of_nat 8)
  else if (n =? 102)%nat then Some (ascii_of_nat 12)
  else if (n =? 110)%nat then Some (ascii_of_nat 10)
  else if (n =? 114)%nat then Some (ascii_of_nat 13)
  else if (n =? 116)%nat then Some (ascii_of_nat 9)
  else None.

(** The body of a [\u] escape: [s] starts after the [u].  A high surrogate
    followed by a [\u] escape of a low surrogate is one character. *)
Definition scan_unicode_escape (s : string) : scan string :=
  match decode_uXXXX s with
  | None => Malformed
  | Some (uni, rest) =>
      if (55296 <=? uni)%N && (uni <=? 56319)%N then
        match rest with
        | String b (String u rest2) =>
            if Ascii.eqb b backslash && Ascii.eqb u "u" then
              match decode_uXXXX rest2 with
              | None => Malformed
              | Some (uni2, rest3) =>
                  if (56320 <=? uni2)%N && (uni2 <=? 57343)%N then
                    Scanned
                      (chr (65536 + ((uni - 55296) * 1024
                                     + (uni2 - 56320)))%N)
                      rest3
                  else Scanned (chr uni) rest
              end
            else Scanned (chr uni) rest
        | _ => Scanned (chr uni) rest
        end
      else Scanned (chr uni) rest
  end.

(** The loop of [py_scanstring] (strict mode); [s] starts after the
    opening quote. *)
Fixpoint scanstring_loop (fuel : nat) (s chunks : string) : scan string :=
  match fuel with
  | O => Exhausted
  | S fuel =>
      match stringchunk s with
      | None => Malformed
      | Some (content, terminator, rest) =>
          let chunks := chunks ++ content in
          if Ascii.eqb terminator dquote then Scanned chunks rest
          else if negb (Ascii.eqb terminator backslash) then Malformed
          else
            match rest with
            | EmptyString => Malformed
            | String esc rest1 =>
                if Ascii.eqb esc "u" then
                  match scan_unicode_escape rest1 with
                  | Scanned char rest2 =>
                      scanstring_loop fuel rest2 (chunks ++ char)
                  | Malformed => Malformed
                  | Raised e => Raised e
                  | Exhausted => Exhausted
                  end
                else
                  match unescape esc with
                  | Some char =>
                      scanstring_loop fuel rest1 (chunks ++ String char "")
                  | None => Malformed
                  end
            end
      end
  end.

Definition scanstring (s : string) : scan string :=
  scanstring_loop (S (String.length s)) s "".

(** *** Containers: [JSONArray] and [JSONObject] *)

(** [dict(pairs)]: a later pair for a key already present replaces the
    value and keeps the key's place. *)
Fixpoint dict_set (d : list (string * pyval)) (k : string) (v : pyval)
    : list (string * pyval) :=
  match d with
  | [] => [(k, v)]
  | (k', v') :: d' =>
      if String.eqb k' k then (k', v) :: d' else (k', v') :: dict_set d' k v
  end.

Definition dict_of_pairs (pairs : list (string * pyval))
    : list (string * pyval) :=
  fold_left (fun d kv => dict_set d (fst kv) (snd kv)) pairs [].

Section Containers.

Variable scan_once : string -> scan pyval.

(** The [while True] loop of [JSONArray]; [s] is where the next value
    starts. *)
Fixpoint array_loop (fuel : nat) (s : string) (values : list pyval)
    : scan pyval :=
  match fuel with
  | O => Exhausted
  | S fuel =>
      match scan_once s with
      | Scanned value rest =>
          let values := (values ++ [value])%list in
          match skip_ws rest with
          | String nextchar rest1 =>
              if Ascii.eqb nextchar "]" then Scanned (PyList values) rest1
              else if Ascii.eqb nextchar "," then
                array_loop fuel (skip_ws rest1) values
              else Malformed
          | EmptyString => Malformed
          end
      | Malformed => Malformed
      | Raised e => Raised e
      | Exhausted => Exhausted
      end
  end.

(** [s] starts after the opening bracket. *)
Definition JSONArray (fuel : nat) (s : string) : scan pyval :=
  match skip_ws s with
  | String nextchar rest =>
      if Ascii.eqb nextchar "]" then Scanned (PyList []) rest
      else array_loop fuel (skip_ws s) []
  | EmptyString => array_loop fuel (skip_ws s) []
  end.

(** The [while True] loop of [JSONObject]; [s] starts after the opening
    quote of the next key. *)
Fixpoint object_loop (fuel : nat) (s : string)
    (pairs : list (string * pyval)) : scan pyval :=
  match fuel with
  | O => Exhausted
  | S fuel =>
      match scanstring s with
      | Scanned key rest =>
          match skip_ws rest with
          | String colon rest1 =>
              if negb (Ascii.eqb colon ":") then Malformed
              else
                match scan_once (skip_ws rest1) with
                | Scanned value rest2 =>
                    let pairs := (pairs ++ [(key, value)])%list in
                    match skip_ws rest2 with
                    | String nextchar rest3 =>
                        if Ascii.eqb nextchar "}" then
                          Scanned (PyDict (dict_of_pairs pairs)) rest3
                        else if Ascii.eqb nextchar "," then
                          match skip_ws rest3 with
                          | String q rest4 =>
                              if Ascii.eqb q dquote
                              then object_loop fuel rest4 pairs
                              else Malformed
                          | EmptyString => Malformed
                          end
                        else Malformed
                    | EmptyString => Malformed
                    end
                | Malformed => Malformed
                | Raised e => Raised e
                | Exhausted => Exhausted
                end
          | EmptyString => Malformed
          end
      | Malformed => Malformed
      | Raised e => Raised e
      | Exhausted => Exhausted
      end
  end.

(** [s] starts after the opening brace. *)
Definition JSONObject (fuel : nat) (s : string) : scan pyval :=
  match skip_ws s with
  | String nextchar rest =>
      if Ascii.eqb nextchar dquote then object_loop fuel rest []
      else if Ascii.eqb nextchar "}" then Scanned (PyDict []) rest
      else Malformed
  | EmptyString => Malformed
  end.

End Containers.

(** *** [_scan_once] and [decode] *)

Definition scan_constant (s : string) : scan pyval :=
  match strip_prefix "null" s with
  | Some rest => Scanned PyNone rest
  | None =>
  match strip_prefix "true" s with
  | Some rest => Scanned (PyBool true) rest
  | None =>
  match strip_prefix "false" s with
  | Some rest => Scanned (PyBool false) rest
  | None =>
  match scan_number s with
  | Some scanned => scanned
  | None =>
  match strip_prefix "NaN" s with
  | Some rest => Scanned (PyFloat "NaN") rest
  | None =>
  match strip_prefix "Infinity" s with
  | Some rest => Scanned (PyFloat "Infinity") rest
  | None =>
  match strip_prefix "-Infinity" s with
  | Some rest => Scanned (PyFloat "-Infinity") rest
  | None => Malformed
  end end end end end end end.

Fixpoint scan_once (fuel : nat) (s : string) : scan pyval :=
  match fuel with
  | O => Exhausted
  | S fuel =>
      match s with
      | EmptyString => Malformed
      | String nextchar rest =>
          if Ascii.eqb nextchar dquote then
            match scanstring rest with
            | Scanned text rest' => Scanned (PyStr text) rest'
            | Malformed => Malformed
            | Raised e => Raised e
            | Exhausted => Exhausted
            end
          else if Ascii.eqb nextchar "{" then
            JSONObject (scan_once fuel) (S (String.length rest)) rest
          else if Ascii.eqb nextchar "[" then
            JSONArray (scan_once fuel) (S (String.length rest)) rest
          else scan_constant s
      end
  end.

(** The byte order mark U+FEFF, which [loads] refuses. *)
Definition bom : string :=
  String (ascii_of_nat 239) (String (ascii_of_nat 187)
    (String (ascii_of_nat 191) "")).

(** [json.loads(s)] for a [str]: [JSONDecoder.decode]. *)
Definition loads (s : string) : result pyval :=
  if String.prefix bom s then Raise (JSONDecodeError s)
  else
    match scan_once (S (String.length s)) (skip_ws s) with
    | Scanned obj rest =>
        match skip_ws rest with
        | EmptyString => Return obj
        | String _ _ => Raise (JSONDecodeError s)
        end
    | Malformed => Raise (JSONDecodeError s)
    | Raised e => Raise e
    | Exhausted => Raise (PyError "RecursionError" "")
    end.

End json.

(** Text with every apostrophe replaced by a double quote: JSON documents
    are written below with apostrophes. *)
Fixpoint dq (s : string) : string :=
  match s with
  | String c rest =>
      String (if Ascii.eqb c "'" then json.dquote else c) (dq rest)
  | EmptyString => EmptyString
  end.

(** ** Text that encodes a flat mapping

    The documents the specification calls syntactically valid mapping
    strings encoding a flat string-to-string structure, written
    independently of the decoder as syntax trees: an object whose members
    pair a string with a string, with optional whitespace around every
    token.  [render] gives the text of a tree and [denote] the mapping it
    stands for.  Keys are distinct; a [\u] escape names a character
    outside the surrogate range, or is half of a pair. *)
Module flat.

Inductive escape : Type :=
| esc_quote | esc_backslash | esc_slash
| esc_b | esc_f | esc_n | esc_r | esc_t.

(** The letter written after the backslash. *)
Definition escape_letter (e : escape) : ascii :=
  match e with
  | esc_quote => ascii_of_nat 34
  | esc_backslash => ascii_of_nat 92
  | esc_slash => "/"
  | esc_b => "b"
  | esc_f => "f"
  | esc_n => "n"
  | esc_r => "r"
  | esc_t => "t"
  end%char.

(** The character the escape stands for. *)
Definition escape_char (e : escape) : ascii :=
  match e with
  | esc_quote => ascii_of_nat 34
  | esc_backslash => ascii_of_nat 92
  | esc_slash => "/"%char
  | esc_b => ascii_of_nat 8
  | esc_f => ascii_of_nat 12
  | esc_n => ascii_of_nat 10
  | esc_r => ascii_of_nat 13
  | esc_t => ascii_of_nat 9
  end.

(** A hexadecimal digit: its value, and whether a letter digit is written
    in upper case. *)
Definition hexdigit : Type := (N * bool)%type.

Definition hex_letter (h : hexdigit) : ascii :=
  let (d, upper) := h in
  ascii_of_N (if d <? 10 then 48 + d else if upper then 55 + d else 87 + d)%N.

Definition code (a b c d : hexdigit) : N :=
  (((fst a * 16 + fst b) * 16 + fst c) * 16 + fst d)%N.

(** One character of a string literal as it is written. *)
Inductive jchar : Type :=
| Plain (c : ascii)
| Escape (e : escape)
| Unicode (a b c d : hexdigit)
| Pair (a b c d a' b' c' d' : hexdigit).

Definition render_hex4 (a b c d : hexdigit) (rest : string) : string :=
  String (ascii_of_nat 92) (String "u" (String (hex_letter a)
    (String (hex_letter b) (String (hex_letter c)
       (String (hex_letter d) rest))))).

(** The text of a sequence of characters, followed by [rest]. *)
Fixpoint render_chars (cs : list jchar) (rest : string) : string :=
  match cs with
  | [] => rest
  | Plain c :: cs => String c (render_chars cs rest)
  | Escape e :: cs =>
      String (ascii_of_nat 92) (String (escape_letter e)
        (render_chars cs rest))
  | Unicode a b c d :: cs => render_hex4 a b c d (render_chars cs rest)
  | Pair a b c d a' b' c' d' :: cs =>
      render_hex4 a b c d (render_hex4 a' b' c' d' (render_chars cs rest))
  end.

Fixpoint denote_chars (cs : list jchar) : string :=
  match cs with
  | [] => ""
  | Plain c :: cs => String c (denote_chars cs)
  | Escape e :: cs => String (escape_char e) (denote_chars cs)
  | Unicode a b c d :: cs => chr (code a b c d) ++ denote_chars cs
  | Pair a b c d a' b' c' d' :: cs =>
      chr (65536 + ((code a b c d - 55296) * 1024
                    + (code a' b' c' d' - 56320)))%N
      ++ denote_chars cs
  end.

Definition is_hexdigit (h : hexdigit) : bool := (fst h <? 16)%N.

Definition wf_char (ch : jchar) : bool :=
  match ch with
  | Plain c =>
      let n := nat_of_ascii c in
      (32 <=? n)%nat && negb (n =? 34)%nat && negb (n =? 92)%nat
  | Escape _ => true
  | Unicode a b c d =>
      is_hexdigit a && is_hexdigit b && is_hexdigit c && is_hexdigit d
      && ((code a b c d <? 55296) || (57343 <? code a b c d))%N
  | Pair a b c d a' b' c' d' =>
      is_hexdigit a && is_hexdigit b && is_hexdigit c && is_hexdigit d
      && is_hexdigit a' && is_hexdigit b' && is_hexdigit c'
      && is_hexdigit d'
      && ((55296 <=? code a b c d) && (code a b c d <=? 56319))%N
      && ((56320 <=? code a' b' c' d') && (code a' b' c' d' <=? 57343))%N
  end.

(** Whitespace: space, tab, line feed, carriage return. *)
Fixpoint is_space (s : string) : bool :=
  match s with
  | EmptyString => true
  | String c rest =>
      let n := nat_of_ascii c in
      ((n =? 32) || (n =? 9) || (n =? 10) || (n =? 13))%nat && is_space rest
  end.

(** A member [key : value] with the whitespace around its tokens. *)
Record member : Type := mkMember {
  before_key : string;
  key : list jchar;
  after_key : string;
  before_value : string;
  value : list jchar;
  after_value : string
}.

(** A document: an object with its members; [inside] is the whitespace
    between the braces of an object with no member. *)
Record document : Type := mkDocument {
  leading : string;
  inside : string;
  members : list member;
  trailing : string
}.

Definition render_literal (cs : list jchar) (rest : string) : string :=
  String (ascii_of_nat 34) (render_chars cs (String (ascii_of_nat 34) rest)).

Definition render_member (m : member) (rest : string) : string :=
  before_key m
  ++ render_literal (key m)
       (after_key m ++ String ":" (before_value m
          ++ render_literal (value m) (after_value m ++ rest))).

(** The members after the first, a comma before each, then the closing
    brace. *)
Fixpoint render_more (ms : list member) (rest : string) : string :=
  match ms with
  | [] => String "}" rest
  | m :: ms => String "," (render_member m (render_more ms rest))
  end.

(** After the opening brace. *)
Definition render_members (d : document) : string :=
  match members d with
  | [] => inside d ++ String "}" (trailing d)
  | m :: ms => render_member m (render_more ms (trailing d))
  end.

Definition render (d : document) : string :=
  leading d ++ String "{" (render_members d).

Definition denote (d : document) : list (string * string) :=
  map (fun m => (denote_chars (key m), denote_chars (value m))) (members d).

Fixpoint distinct (ks : list string) : bool :=
  match ks with
  | [] => true
  | k :: ks => negb (existsb (String.eqb k) ks) && distinct ks
  end.

Definition wf_member (m : member) : bool :=
  is_space (before_key m) && forallb wf_char (key m)
  && is_space (after_key m) && is_space (before_value m)
  && forallb wf_char (value m) && is_space (after_value m).

Definition well_formed (d : document) : bool :=
  is_space (leading d) && is_space (inside d) && is_space (trailing d)
  && forallb wf_member (members d)
  && distinct (map fst (denote d)).

(** Characters written as they are. *)
Definition plain (s : string) : list jchar :=
  map Plain (list_ascii_of_string s).

(** The Python value of a mapping of strings. *)
Definition to_dict (pairs : list (string * string)) : pyval :=
  PyDict (map (fun kv => (fst kv, PyStr (snd kv))) pairs).

End flat.

(** ** The fragment of [argparse] the command uses

    [argparse] too belongs to the standard library.  The model starts
    where the command line is already split into occurrences of option
    strings with the argument strings that follow each; it covers what
    [add_argument] is called with below: [type], [choices], [nargs='*'],
    [required].  Help texts are left out. *)
Module argparse.



















End argparse.

Section Command.

(** [json.loads], from the Python standard library; the collaborator; the
    values of the enumeration [file_adapters.FileFormat]. *)
Variable json_loads : string -> result pyval.
Variable C : Collaborator.
Variable FileFormat_values : list string.

(** Calls that leave this file, in the order they are made. *)
Inductive call : Type :=
| call_json_loads (s : string)
| call_CroissantBuilder (kwargs : BuilderArgs)
| call_download_and_prepare (b : Builder C).

Record state : Type := mkState {
  calls : list call;
  world : World C
}.

Definition M (A : Type) : Type := state -> result A * state.

Definition ret {A : Type} (a : A) : M A := fun st => (Return a, st).

Definition raise {A : Type} (e : exn) : M A := fun st => (Raise e, st).

Definition bind {A B : Type} (m : M A) (k : A -> M B) : M B :=
  fun st =>
    match m st with
    | (Return a, st') => k a st'
    | (Raise e, st') => (Raise e, st')
    end.

(** [try: m  except <class matched by handles> as e: handler e]. *)
Definition try_except {A : Type} (m : M A) (handles : exn -> bool)
    (handler : exn -> M A) : M A :=
  fun st =>
    match m st with
    | (Return a, st') => (Return a, st')
    | (Raise e, st') => if handles e then handler e st' else (Raise e, st')
    end.

Definition log (c : call) : M unit :=
  fun st => (Return tt, mkState (calls st ++ [c])%list (world st)).

(** Run an operation of the collaborator on the world. *)
Definition on_world {A : Type} (f : World C -> result A * World C) : M A :=
  fun st =>
    let (r, w) := f (world st) in (r, mkState (calls st) w).

Notation "x <- m ;; k" := (bind m (fun x => k))
  (at level 61, m at next level, right associativity).
Notation "m ;;; k" := (bind m (fun _ => k))
  (at level 61, right associativity).

Definition do_json_loads (s : string) : M pyval :=
  log (call_json_loads s) ;;;
  match json_loads s with
  | Return v => ret v
  | Raise e => raise e
  end.

Definition do_CroissantBuilder (kwargs : BuilderArgs) : M (Builder C) :=
  log (call_CroissantBuilder kwargs) ;;;
  on_world (CroissantBuilder C kwargs).

Definition do_download_and_prepare (b : Builder C) : M unit :=
  log (call_download_and_prepare b) ;;;
  on_world (download_and_prepare C b).

(** ** [prepare_croissant_builder] *)

(** Lines 122-126: the [mapping] variable after the [if mapping:] block. *)
Definition parse_mapping (mapping : option string) : M pyval :=
  match mapping with
  | Some text =>
      if truthy_str mapping then
        try_except (do_json_loads text) is_JSONDecodeError
          (fun e =>
             raise (ValueError ("Error parsing mapping parameter: " ++ text)
                               (Some e)))
      else ret (pyval_of_optstr mapping)
  | None => ret (pyval_of_optstr mapping)
  end.

(** Lines 127-134: construct the builder, run it. *)
Definition delegate (kwargs : BuilderArgs) : M unit :=
  builder <- do_CroissantBuilder kwargs ;;
  do_download_and_prepare builder.

Definition prepare_croissant_builder
    (jsonld : string) (record_sets : option (list string))
    (out_file_format : string) (out_dir : string)
    (mapping : option string) : M pyval :=
  let record_sets :=
    if negb (truthy_seq record_sets) then None else record_sets in
  mapping <- parse_mapping mapping ;;
  delegate
    (mkBuilderArgs jsonld record_sets out_file_format out_dir mapping) ;;;
  ret PyNone.

(** An invocation starts with no call made yet. *)
Definition run {A : Type} (m : M A) (w : World C) : result A * state :=
  m (mkState [] w).

(** What a list of calls holds for each callee. *)
Definition decoded (cs : list call) : list string :=
  flat_map (fun c => match c with call_json_loads s => [s] | _ => [] end) cs.

Definition constructed (cs : list call) : list BuilderArgs :=
  flat_map
    (fun c => match c with call_CroissantBuilder kw => [kw] | _ => [] end) cs.

Definition prepared (cs : list call) : list (Builder C) :=
  flat_map
    (fun c => match c with call_download_and_prepare b => [b] | _ => [] end)
    cs.

(** ** The subcommand *)

Import argparse.







End Command.


Arguments call_json_loads {C} s.
Arguments call_CroissantBuilder {C} kwargs.
Arguments call_download_and_prepare {C} b.
Arguments mkState {C} calls world.
Arguments calls {C} s.
Arguments world {C} s.
Arguments run {C A} m w.
Arguments decoded {C} cs.
Arguments constructed {C} cs.
Arguments prepared {C} cs.
Arguments parse_mapping json_loads {C} mapping.
Arguments delegate {C} kwargs.

(** ** Collaborators to run the command with *)

(** A collaborator that follows a script: the constructor raises
    [on_init] when it is an exception, and [download_and_prepare] raises
    [on_prepare].  The world counts the datasets prepared; a builder is the
    arguments it was constructed with. *)
Definition scripted (on_init on_prepare : option exn) : Collaborator :=
  mkCollaborator nat BuilderArgs
    (fun kw w =>
       match on_init with
       | Some e => (Raise e, w)
       | None => (Return kw, w)
       end)
    (fun _ w =>
       match on_prepare with
       | Some e => (Raise e, w)
       | None => (Return tt, S w)
       end).

(** The collaborator that never raises. *)
Definition quiet : Collaborator := scripted None None.


Import argparse.


(** The mapping of the specification's example, one member with a space
    after the colon. *)
Definition home_mapping : flat.document :=
  flat.mkDocument "" ""
    [flat.mkMember "" (flat.plain "a.csv") "" " "
       (flat.plain "/home/u/a.csv") ""]
    "".

(** ** Reading a namespace and a call log by option and by text *)



(** The texts line 124 hands to the decoder: the mapping when it is a
    non-empty string, nothing otherwise. *)
Definition texts_to_decode (mapping : option string) : list string :=
  match mapping with
  | Some text => if truthy_str mapping then [text] else []
  | None => []
  end.


(** * Properties *)

(** ** How the command runs *)

Section Runs.

Variable json_loads : string -> result pyval.
Variable C : Collaborator.

Implicit Types (st : @state C) (w : World C) (m : option string).

Lemma parse_mapping_absent st :
  parse_mapping json_loads None st = (Return PyNone, st).
Proof. reflexivity. Qed.

Lemma parse_mapping_empty st :
  parse_mapping json_loads (Some "") st = (Return (PyStr ""), st).
Proof. reflexivity. Qed.

Lemma parse_mapping_text (text : string) st :
  text <> "" ->
  parse_mapping json_loads (Some text) st =
  let st1 := mkState (calls st ++ [call_json_loads text])%list (world st) in
  match json_loads text with
  | Return v => (Return v, st1)
  | Raise e =>
      if is_JSONDecodeError e
      then (Raise (ValueError ("Error parsing mapping parameter: " ++ text)
                              (Some e)), st1)
      else (Raise e, st1)
  end.
Proof.
  intros Hne. destruct text as [|c text]; [congruence|].
  unfold parse_mapping, try_except, do_json_loads, bind, log, ret, raise.
  cbn [truthy_str]. destruct (json_loads (String c text)) as [v|e]; cbn.
  - reflexivity.
  - destruct (is_JSONDecodeError e); reflexivity.
Qed.

Lemma delegate_runs (kw : BuilderArgs) st :
  delegate kw st =
  match CroissantBuilder C kw (world st) with
  | (Return b, w1) =>
      let (r, w2) := download_and_prepare C b w1 in
      (r, mkState (calls st ++ [call_CroissantBuilder kw;
                                call_download_and_prepare b])%list w2)
  | (Raise e, w1) =>
      (Raise e, mkState (calls st ++ [call_CroissantBuilder kw])%list w1)
  end.
Proof.
  unfold delegate, do_CroissantBuilder, do_download_and_prepare, bind, log,
    on_world. cbn.
  destruct (CroissantBuilder C kw (world st)) as [[b|e] w1]; cbn.
  - destruct (download_and_prepare C b w1) as [r w2].
    rewrite <- app_assoc. reflexivity.
  - reflexivity.
Qed.

(** The record sets handed on: lines 119-120. *)
Lemma prepare_croissant_builder_runs
    (j : string) (rs : option (list string)) (f o : string) m st :
  prepare_croissant_builder json_loads C j rs f o m st =
  match parse_mapping json_loads m st with
  | (Return v, st1) =>
      match
        delegate
          (mkBuilderArgs j (if truthy_seq rs then rs else None) f o v) st1
      with
      | (Return _, st2) => (Return PyNone, st2)
      | (Raise e, st2) => (Raise e, st2)
      end
  | (Raise e, st1) => (Raise e, st1)
  end.
Proof.
  unfold prepare_croissant_builder, bind, ret.
  destruct (parse_mapping json_loads m st) as [[v|e] st1]; [|reflexivity].
  destruct (truthy_seq rs); cbn [negb]; reflexivity.
Qed.

(** The calls of [parse_mapping] never reach the collaborator. *)
Lemma parse_mapping_calls m st (r : result pyval) st1 :
  parse_mapping json_loads m st = (r, st1) ->
  world st1 = world st /\
  exists ds, calls st1 = (calls st ++ map call_json_loads ds)%list.
Proof.
  destruct m as [text|].
  - destruct text as [|c text].
    + rewrite parse_mapping_empty. intros [= <- <-]. split; [reflexivity|].
      exists []. cbn. now rewrite app_nil_r.
    + rewrite parse_mapping_text by congruence. cbn zeta.
      destruct (json_loads (String c text)) as [v|e];
        [|destruct (is_JSONDecodeError e)];
        intros [= <- <-]; (split; [reflexivity|]);
        exists [String c text]; reflexivity.
  - rewrite parse_mapping_absent. intros [= <- <-]. split; [reflexivity|].
    exists []. cbn. now rewrite app_nil_r.
Qed.

Lemma constructed_app (xs ys : list (@call C)) :
  constructed (xs ++ ys) = (constructed xs ++ constructed ys)%list.
Proof. unfold constructed. now rewrite flat_map_app. Qed.

Lemma prepared_app (xs ys : list (@call C)) :
  prepared (xs ++ ys) = (prepared xs ++ prepared ys)%list.
Proof. unfold prepared. now rewrite flat_map_app. Qed.

Lemma decoded_app (xs ys : list (@call C)) :
  decoded (xs ++ ys) = (decoded xs ++ decoded ys)%list.
Proof. unfold decoded. now rewrite flat_map_app. Qed.

Lemma constructed_decodes (ds : list string) :
  constructed (map (@call_json_loads C) ds) = [].
Proof. induction ds; cbn; auto. Qed.

Lemma prepared_decodes (ds : list string) :
  prepared (map (@call_json_loads C) ds) = [].
Proof. induction ds; cbn; auto. Qed.

End Runs.

(** ** Text *)

Lemma prefix_refl (s : string) : String.prefix s s = true.
Proof.
  induction s as [|c s IH]; cbn; [reflexivity|].
  destruct (ascii_dec c c); [exact IH|congruence].
Qed.

Lemma str_contains_suffix (p s : string) : str_contains s (p ++ s) = true.
Proof.
  induction p as [|c p IH]; cbn [append].
  - destruct s; cbn [str_contains]; rewrite prefix_refl; reflexivity.
  - cbn [str_contains]. rewrite IH. apply orb_true_r.
Qed.

(** ** The arguments the collaborator is constructed with *)

Section Delegation.

Variable json_loads : string -> result pyval.
Variable C : Collaborator.

(** The collaborator is constructed at most once: once, with the parsed
    mapping and the normalised record sets, when the mapping step returns;
    never when it raises. *)
Lemma constructed_by_run
    (j : string) (rs : option (list string)) (f o : string)
    (m : option string) (w : World C) :
  let st := snd (run (prepare_croissant_builder json_loads C j rs f o m) w) in
  match run (parse_mapping json_loads m) w with
  | (Return v, _) =>
      constructed (calls st) =
      [mkBuilderArgs j (if truthy_seq rs then rs else None) f o v]
  | (Raise _, _) => constructed (calls st) = []
  end.
Proof.
  unfold run. cbv zeta. rewrite prepare_croissant_builder_runs.
  destruct (parse_mapping json_loads m (mkState [] w)) as [[v|e] st1] eqn:Hp.
  - destruct (parse_mapping_calls _ _ _ _ _ _ Hp) as [_ [ds Hds]].
    cbn [calls app] in Hds. rewrite delegate_runs.
    destruct (CroissantBuilder C _ (world st1)) as [[b|e] w1].
    + destruct (download_and_prepare C b w1) as [[[]|e] w2];
        cbn [snd calls]; rewrite constructed_app, Hds, constructed_decodes;
        reflexivity.
    + cbn [snd calls]. rewrite constructed_app, Hds, constructed_decodes.
      reflexivity.
  - destruct (parse_mapping_calls _ _ _ _ _ _ Hp) as [_ [ds Hds]].
    cbn [calls app] in Hds. cbn [snd]. rewrite Hds.
    apply constructed_decodes.
Qed.

(** After the mapping step returned [v] in state [st1], the command is the
    delegation and nothing else. *)
Lemma run_after_mapping
    (j : string) (rs : option (list string)) (f o : string)
    (m : option string) (w : World C) (v : pyval) (st1 : @state C) :
  run (parse_mapping json_loads m) w = (Return v, st1) ->
  run (prepare_croissant_builder json_loads C j rs f o m) w =
  match
    delegate (mkBuilderArgs j (if truthy_seq rs then rs else None) f o v) st1
  with
  | (Return _, st2) => (Return PyNone, st2)
  | (Raise e, st2) => (Raise e, st2)
  end.
Proof.
  unfold run. intros Hp. rewrite prepare_croissant_builder_runs, Hp.
  reflexivity.
Qed.

End Delegation.

(** ** The claims about [prepare_croissant_builder] *)

(** C1, amended.  For every non-empty mapping string on which the decoder
    raises [JSONDecodeError], [prepare_croissant_builder] raises a
    [ValueError] whose message ends with the original string, chained to
    the decoder's error; the only call made is the one to the decoder, so
    the collaborator is neither constructed nor run and the world is
    untouched. *)
Theorem malformed_mapping_raises_value_error
    (json_loads : string -> result pyval) (C : Collaborator)
    (j : string) (rs : option (list string)) (f o text : string)
    (w : World C) (e : exn) :
  text <> "" ->
  json_loads text = Raise e ->
  is_JSONDecodeError e = true ->
  let msg := "Error parsing mapping parameter: " ++ text in
  run (prepare_croissant_builder json_loads C j rs f o (Some text)) w
  = (Raise (ValueError msg (Some e)), mkState [call_json_loads text] w)
  /\ str_contains text msg = true.
Proof.
  intros Hne Hl He msg. split.
  - unfold run. rewrite prepare_croissant_builder_runs.
    rewrite parse_mapping_text by assumption. cbv zeta.
    rewrite Hl, He. reflexivity.
  - apply str_contains_suffix.
Qed.

(** Witness for C1, amended: the specification's example [{not valid}]. *)
Lemma malformed_mapping_witness :
  "{not valid}" <> ""
  /\ json.loads "{not valid}" = Raise (JSONDecodeError "{not valid}")
  /\ run (prepare_croissant_builder json.loads quiet "/tmp/d.json" None
            "tfrecord" "/tmp/out" (Some "{not valid}")) 0
     = (Raise (ValueError "Error parsing mapping parameter: {not valid}"
                 (Some (JSONDecodeError "{not valid}"))),
        @mkState quiet [call_json_loads "{not valid}"] 0).
Proof.
  assert (H1 : "{not valid}" <> "") by discriminate.
  assert (H2 : json.loads "{not valid}"
               = Raise (JSONDecodeError "{not valid}")) by reflexivity.
  split; [exact H1|]. split; [exact H2|].
  exact (proj1 (malformed_mapping_raises_value_error json.loads quiet
                  "/tmp/d.json" None "tfrecord" "/tmp/out" "{not valid}" 0
                  (JSONDecodeError "{not valid}") H1 H2 eq_refl)).
Defined.

(** Counterexample to C1 as stated, at [mapping='']: the empty string is
    no JSON document, the decoder raises on it, and yet the command
    raises nothing and runs the collaborator, with the empty string as
    [mapping]. *)
Lemma empty_mapping_is_not_refused :
  json.loads "" = Raise (JSONDecodeError "")
  /\ run (prepare_croissant_builder json.loads quiet "/tmp/d.json" None
            "tfrecord" "/tmp/out" (Some "")) 0
     = (Return PyNone,
        @mkState quiet
          [call_CroissantBuilder
             (mkBuilderArgs "/tmp/d.json" None "tfrecord" "/tmp/out"
                (PyStr ""));
           call_download_and_prepare
             (mkBuilderArgs "/tmp/d.json" None "tfrecord" "/tmp/out"
                (PyStr "") : Builder quiet)]
          1).
Proof. split; reflexivity. Qed.

(** C2.  When [record_sets] is [None] or an empty sequence, every
    construction of the collaborator gets [record_set_ids=None], and
    whenever the mapping step returns the collaborator is constructed
    exactly once, with [record_set_ids=None]. *)
Theorem empty_record_sets_become_none
    (json_loads : string -> result pyval) (C : Collaborator)
    (j : string) (rs : option (list string)) (f o : string)
    (m : option string) (w : World C) :
  rs = None \/ rs = Some [] ->
  let st := snd (run (prepare_croissant_builder json_loads C j rs f o m) w) in
  Forall (fun kw => record_set_ids kw = None) (constructed (calls st))
  /\ (forall v st1,
        run (parse_mapping json_loads m) w = (Return v, st1) ->
        constructed (calls st) = [mkBuilderArgs j None f o v]).
Proof.
  intros Hrs st.
  assert (Hn : (if truthy_seq rs then rs else None) = None)
    by (destruct Hrs; subst rs; reflexivity).
  pose proof (constructed_by_run json_loads C j rs f o m w) as H.
  cbv zeta in H. fold st in H. rewrite Hn in H.
  destruct (run (parse_mapping json_loads m) w) as [[v|e] st1] eqn:Hp.
  - split.
    + rewrite H. constructor; [reflexivity|constructor].
    + intros v' st1' [= <- <-]. exact H.
  - split.
    + rewrite H. constructor.
    + intros v' st1' [=].
Qed.

(** Witness for C2: [record_sets=[]]. *)
Lemma empty_record_sets_witness :
  (Some (@nil string) = None \/ Some (@nil string) = Some [])
  /\ constructed
       (calls
          (snd (run (prepare_croissant_builder json.loads quiet
                       "/tmp/d.json" (Some []) "tfrecord" "/tmp/out" None)
                  0)))
     = [mkBuilderArgs "/tmp/d.json" None "tfrecord" "/tmp/out" PyNone].
Proof.
  assert (H : Some (@nil string) = None \/ Some (@nil string) = Some [])
    by (right; reflexivity).
  split; [exact H|].
  exact (proj2 (empty_record_sets_become_none json.loads quiet "/tmp/d.json"
                  (Some []) "tfrecord" "/tmp/out" None 0 H)
           PyNone (@mkState quiet [] 0) eq_refl).
Defined.

(** C9.  A non-empty sequence of record set selectors reaches the
    collaborator as it is: every construction gets exactly that sequence,
    and whenever the mapping step returns the collaborator is constructed
    exactly once, with that sequence. *)
Theorem record_sets_are_forwarded_unchanged
    (json_loads : string -> result pyval) (C : Collaborator)
    (j : string) (ids : list string) (f o : string)
    (m : option string) (w : World C) :
  ids <> [] ->
  let st :=
    snd (run (prepare_croissant_builder json_loads C j (Some ids) f o m) w) in
  Forall (fun kw => record_set_ids kw = Some ids) (constructed (calls st))
  /\ (forall v st1,
        run (parse_mapping json_loads m) w = (Return v, st1) ->
        constructed (calls st) = [mkBuilderArgs j (Some ids) f o v]).
Proof.
  intros Hne st.
  assert (Hn : (if truthy_seq (Some ids) then Some ids else None) = Some ids)
    by (destruct ids; [congruence|reflexivity]).
  pose proof (constructed_by_run json_loads C j (Some ids) f o m w) as H.
  cbv zeta in H. fold st in H. rewrite Hn in H.
  destruct (run (parse_mapping json_loads m) w) as [[v|e] st1] eqn:Hp.
  - split.
    + rewrite H. constructor; [reflexivity|constructor].
    + intros v' st1' [= <- <-]. exact H.
  - split.
    + rewrite H. constructor.
    + intros v' st1' [=].
Qed.

(** Witness for C9: the record sets of the module's docstring. *)
Lemma record_sets_witness :
  ["record1"; "record2"] <> []
  /\ constructed
       (calls
          (snd (run (prepare_croissant_builder json.loads quiet
                       "/tmp/croissant.json" (Some ["record1"; "record2"])
                       "array_record" "/tmp/foo" None) 0)))
     = [mkBuilderArgs "/tmp/croissant.json" (Some ["record1"; "record2"])
          "array_record" "/tmp/foo" PyNone].
Proof.
  assert (H : ["record1"; "record2"] <> []) by discriminate.
  split; [exact H|].
  exact (proj2 (record_sets_are_forwarded_unchanged json.loads quiet
                  "/tmp/croissant.json" ["record1"; "record2"]
                  "array_record" "/tmp/foo" None 0 H)
           PyNone (@mkState quiet [] 0) eq_refl).
Defined.

(** C3, amended.  A non-empty mapping string is refused exactly when the
    decoder raises on it: a [JSONDecodeError] becomes the [ValueError], any
    other exception passes as it is, and in both cases the collaborator is
    not constructed.  A string the decoder accepts is not refused, whatever
    the shape of the value: the collaborator is constructed with it. *)
Theorem mapping_is_refused_only_when_decoding_fails
    (json_loads : string -> result pyval) (C : Collaborator)
    (j : string) (rs : option (list string)) (f o text : string)
    (w : World C) :
  text <> "" ->
  let out :=
    run (prepare_croissant_builder json_loads C j rs f o (Some text)) w in
  match json_loads text with
  | Raise e =>
      out =
      (Raise (if is_JSONDecodeError e
              then ValueError ("Error parsing mapping parameter: " ++ text)
                     (Some e)
              else e),
       mkState [call_json_loads text] w)
  | Return v =>
      constructed (calls (snd out)) =
      [mkBuilderArgs j (if truthy_seq rs then rs else None) f o v]
  end.
Proof.
  intros Hne out.
  pose proof (constructed_by_run json_loads C j rs f o (Some text) w) as H.
  cbv zeta in H. fold out in H. unfold run in H.
  rewrite parse_mapping_text in H by assumption. cbv zeta in H.
  destruct (json_loads text) as [v|e] eqn:Hl.
  - exact H.
  - subst out. unfold run. rewrite prepare_croissant_builder_runs.
    rewrite parse_mapping_text by assumption. cbv zeta. rewrite Hl.
    destruct (is_JSONDecodeError e); reflexivity.
Qed.

(** Witness for C3, amended: a text that parses to a number, and one
    that does not parse. *)
Lemma mapping_refusal_witness :
  "42" <> ""
  /\ constructed
       (calls
          (snd (run (prepare_croissant_builder json.loads quiet
                       "/tmp/d.json" None "tfrecord" "/tmp/out" (Some "42"))
                  0)))
     = [mkBuilderArgs "/tmp/d.json" None "tfrecord" "/tmp/out" (PyInt 42)]
  /\ "{'a': 1}" <> ""
  /\ run (prepare_croissant_builder json.loads quiet "/tmp/d.json" None
            "tfrecord" "/tmp/out" (Some "{'a': 1}")) 0
     = (Raise (ValueError "Error parsing mapping parameter: {'a': 1}"
                 (Some (JSONDecodeError "{'a': 1}"))),
        @mkState quiet [call_json_loads "{'a': 1}"] 0).
Proof.
  assert (H1 : "42" <> "") by discriminate.
  assert (H2 : "{'a': 1}" <> "") by discriminate.
  split; [exact H1|]. split.
  - exact (mapping_is_refused_only_when_decoding_fails json.loads quiet
             "/tmp/d.json" None "tfrecord" "/tmp/out" "42" 0 H1).
  - split; [exact H2|].
    exact (mapping_is_refused_only_when_decoding_fails json.loads quiet
             "/tmp/d.json" None "tfrecord" "/tmp/out" "{'a': 1}" 0 H2).
Defined.

(** Counterexample to C3 as stated, at [mapping='[1, 2]']: the text
    parses to a list, which is no flat mapping, and the command raises
    nothing and hands the list to the collaborator. *)
Lemma list_mapping_is_not_refused :
  json.loads "[1, 2]" = Return (PyList [PyInt 1; PyInt 2])
  /\ is_flat_mapping (PyList [PyInt 1; PyInt 2]) = false
  /\ run (prepare_croissant_builder json.loads quiet "/tmp/d.json" None
            "tfrecord" "/tmp/out" (Some "[1, 2]")) 0
     = (Return PyNone,
        @mkState quiet
          [call_json_loads "[1, 2]";
           call_CroissantBuilder
             (mkBuilderArgs "/tmp/d.json" None "tfrecord" "/tmp/out"
                (PyList [PyInt 1; PyInt 2]));
           call_download_and_prepare
             (mkBuilderArgs "/tmp/d.json" None "tfrecord" "/tmp/out"
                (PyList [PyInt 1; PyInt 2]) : Builder quiet)]
          1).
Proof. repeat split; reflexivity. Qed.

(** C5.  Once the mapping step has returned, an exception raised by the
    constructor of the collaborator, or by its [download_and_prepare], is
    the exception [prepare_croissant_builder] raises, the same value; the
    failing call was made once and nothing was called after it. *)
Theorem collaborator_errors_propagate_unchanged
    (json_loads : string -> result pyval) (C : Collaborator)
    (j : string) (rs : option (list string)) (f o : string)
    (m : option string) (w : World C) (v : pyval) (st1 : @state C)
    (e : exn) :
  run (parse_mapping json_loads m) w = (Return v, st1) ->
  let kw := mkBuilderArgs j (if truthy_seq rs then rs else None) f o v in
  let out := run (prepare_croissant_builder json_loads C j rs f o m) w in
  (forall w1,
     CroissantBuilder C kw w = (Raise e, w1) ->
     out = (Raise e,
            mkState (calls st1 ++ [call_CroissantBuilder kw])%list w1))
  /\ (forall b w1 w2,
        CroissantBuilder C kw w = (Return b, w1) ->
        download_and_prepare C b w1 = (Raise e, w2) ->
        out = (Raise e,
               mkState (calls st1 ++ [call_CroissantBuilder kw;
                                      call_download_and_prepare b])%list
                 w2)).
Proof.
  intros Hp kw out. subst out.
  rewrite (run_after_mapping _ _ _ _ _ _ _ _ _ _ Hp). fold kw.
  destruct (parse_mapping_calls _ _ _ _ _ _ Hp) as [Hw _].
  cbn [world] in Hw. rewrite delegate_runs, Hw. split.
  - intros w1 H1. rewrite H1. reflexivity.
  - intros b w1 w2 H1 H2. rewrite H1, H2. reflexivity.
Qed.

(** Witness for C5: a constructor that raises, and a
    [download_and_prepare] that raises. *)
Lemma collaborator_errors_witness :
  let missing := PyError "FileNotFoundError" "/tmp/d.json" in
  let unknown := ValueError "Did not find any record set" None in
  run (prepare_croissant_builder json.loads (scripted (Some missing) None)
         "/tmp/d.json" None "tfrecord" "/tmp/out" None) 0
  = (Raise missing,
     @mkState (scripted (Some missing) None)
       [call_CroissantBuilder
          (mkBuilderArgs "/tmp/d.json" None "tfrecord" "/tmp/out" PyNone)]
       0)
  /\ run (prepare_croissant_builder json.loads
            (scripted None (Some unknown))
            "/tmp/d.json" (Some ["missing"]) "tfrecord" "/tmp/out" None) 0
     = (Raise unknown,
        @mkState (scripted None (Some unknown))
          [call_CroissantBuilder
             (mkBuilderArgs "/tmp/d.json" (Some ["missing"]) "tfrecord"
                "/tmp/out" PyNone);
           call_download_and_prepare
             (mkBuilderArgs "/tmp/d.json" (Some ["missing"]) "tfrecord"
                "/tmp/out" PyNone : Builder (scripted None (Some unknown)))]
          0).
Proof.
  intros missing unknown. split.
  - exact (proj1
      (collaborator_errors_propagate_unchanged json.loads
         (scripted (Some missing) None) "/tmp/d.json" None "tfrecord"
         "/tmp/out" None 0 PyNone (@mkState (scripted (Some missing) None) [] 0)
         missing eq_refl)
      0 eq_refl).
  - exact (proj2
      (collaborator_errors_propagate_unchanged json.loads
         (scripted None (Some unknown)) "/tmp/d.json" (Some ["missing"])
         "tfrecord" "/tmp/out" None 0 PyNone
         (@mkState (scripted None (Some unknown)) [] 0) unknown eq_refl)
      _ 0 0 eq_refl eq_refl).
Defined.

(** C6.  When the mapping step returns and neither call of the
    collaborator raises, the command constructs one collaborator, with
    the normalised arguments, calls its [download_and_prepare] once, and
    returns [None]. *)
Theorem valid_invocation_delegates_once
    (json_loads : string -> result pyval) (C : Collaborator)
    (j : string) (rs : option (list string)) (f o : string)
    (m : option string) (w : World C) (v : pyval) (st1 : @state C)
    (b : Builder C) (w1 w2 : World C) :
  run (parse_mapping json_loads m) w = (Return v, st1) ->
  let kw := mkBuilderArgs j (if truthy_seq rs then rs else None) f o v in
  CroissantBuilder C kw w = (Return b, w1) ->
  download_and_prepare C b w1 = (Return tt, w2) ->
  let out := run (prepare_croissant_builder json_loads C j rs f o m) w in
  out = (Return PyNone,
         mkState (calls st1 ++ [call_CroissantBuilder kw;
                                call_download_and_prepare b])%list w2)
  /\ constructed (calls (snd out)) = [kw]
  /\ prepared (calls (snd out)) = [b].
Proof.
  intros Hp kw H1 H2 out.
  assert (Hout : out =
    (Return PyNone,
     mkState (calls st1 ++ [call_CroissantBuilder kw;
                            call_download_and_prepare b])%list w2)).
  { subst out. rewrite (run_after_mapping _ _ _ _ _ _ _ _ _ _ Hp). fold kw.
    destruct (parse_mapping_calls _ _ _ _ _ _ Hp) as [Hw _].
    cbn [world] in Hw. rewrite delegate_runs, Hw, H1, H2. reflexivity. }
  destruct (parse_mapping_calls _ _ _ _ _ _ Hp) as [_ [ds Hds]].
  cbn [calls app] in Hds.
  rewrite Hout. cbn [snd calls]. rewrite Hds. repeat split.
  - rewrite constructed_app, constructed_decodes. reflexivity.
  - rewrite prepared_app, prepared_decodes. reflexivity.
Qed.

(** Witness for C6, the invocation of the specification:
    [jsonld='/tmp/d.json'], [record_sets=[]], [out_dir='/tmp/out'],
    [mapping=None]. *)
Lemma valid_invocation_witness :
  let kw := mkBuilderArgs "/tmp/d.json" None "tfrecord" "/tmp/out" PyNone in
  run (prepare_croissant_builder json.loads quiet "/tmp/d.json" (Some [])
         "tfrecord" "/tmp/out" None) 0
  = (Return PyNone,
     @mkState quiet [call_CroissantBuilder kw;
              call_download_and_prepare (kw : Builder quiet)] 1).
Proof.
  intros kw.
  exact (proj1
    (valid_invocation_delegates_once json.loads quiet "/tmp/d.json"
       (Some []) "tfrecord" "/tmp/out" None 0 PyNone (@mkState quiet [] 0)
       kw 0 1 eq_refl eq_refl eq_refl)).
Defined.

(** C8.  With [mapping=''] the decoder is not called, whatever it would
    answer; the collaborator is constructed with the empty string itself,
    and the outcome of the command is the outcome of the delegation: the
    command adds no error of its own. *)
Theorem empty_mapping_is_forwarded_unparsed
    (json_loads : string -> result pyval) (C : Collaborator)
    (j : string) (rs : option (list string)) (f o : string) (w : World C) :
  let kw :=
    mkBuilderArgs j (if truthy_seq rs then rs else None) f o (PyStr "") in
  let out :=
    run (prepare_croissant_builder json_loads C j rs f o (Some "")) w in
  decoded (calls (snd out)) = []
  /\ constructed (calls (snd out)) = [kw]
  /\ out = match run (delegate kw) w with
           | (Return _, st) => (Return PyNone, st)
           | (Raise e, st) => (Raise e, st)
           end.
Proof.
  intros kw out.
  assert (Hout : out = match run (delegate kw) w with
                       | (Return _, st) => (Return PyNone, st)
                       | (Raise e, st) => (Raise e, st)
                       end).
  { subst out. unfold run at 1. rewrite prepare_croissant_builder_runs.
    rewrite parse_mapping_empty. reflexivity. }
  rewrite Hout. unfold run. rewrite delegate_runs. cbn [world calls app].
  destruct (CroissantBuilder C kw w) as [[b|e] w1].
  - destruct (download_and_prepare C b w1) as [[[]|e] w2];
      repeat split; reflexivity.
  - repeat split; reflexivity.
Qed.



(** ** The command line *)

Import argparse.

Lemma existsb_eqb_In (value : string) (allowed : list string) :
  existsb (String.eqb value) allowed = true <-> In value allowed.
Proof.
  rewrite existsb_exists. split.
  - intros [x [Hin Heq]]. apply String.eqb_eq in Heq. now subst x.
  - intros Hin. exists value. split; [assumption|apply String.eqb_refl].
Qed.











(** ** The decoder on text that encodes a flat mapping *)

Section FlatText.

Import json flat.

Lemma append_empty (s : string) : s ++ "" = s.
Proof. induction s as [|c s IH]; cbn; [reflexivity|now rewrite IH]. Qed.

Lemma append_assoc (a b c : string) : (a ++ b) ++ c = a ++ (b ++ c).
Proof. induction a as [|x a IH]; cbn; [reflexivity|now rewrite IH]. Qed.

Lemma length_append (a b : string) :
  String.length (a ++ b) = String.length a + String.length b.
Proof. induction a as [|x a IH]; cbn; [reflexivity|now rewrite IH]. Qed.

Lemma skip_ws_space (ws s : string) :
  is_space ws = true -> skip_ws (ws ++ s) = skip_ws s.
Proof.
  induction ws as [|c ws IH]; cbn [is_space append skip_ws]; [reflexivity|].
  intros H. apply andb_true_iff in H. destruct H as [Hc Hws].
  unfold is_ws. rewrite Hc. exact (IH Hws).
Qed.

Lemma skip_ws_all_space (ws : string) :
  is_space ws = true -> skip_ws ws = "".
Proof.
  intros H. rewrite <- (append_empty ws), skip_ws_space by assumption.
  reflexivity.
Qed.

Lemma skip_ws_token (c : ascii) (s : string) :
  is_ws c = false -> skip_ws (String c s) = String c s.
Proof. intros H. cbn [skip_ws]. now rewrite H. Qed.

(** *** Escapes *)

Lemma hex_value_letter (h : hexdigit) :
  is_hexdigit h = true -> hex_value (hex_letter h) = Some (fst h).
Proof.
  destruct h as [d upper]. unfold is_hexdigit. cbn [fst]. intros H.
  apply N.ltb_lt in H.
  assert (Hd : (d = 0 \/ d = 1 \/ d = 2 \/ d = 3 \/ d = 4 \/ d = 5 \/ d = 6
               \/ d = 7 \/ d = 8 \/ d = 9 \/ d = 10 \/ d = 11 \/ d = 12
               \/ d = 13 \/ d = 14 \/ d = 15)%N) by lia.
  repeat (destruct Hd as [->|Hd]; [destruct upper; reflexivity|]).
  subst d. destruct upper; reflexivity.
Qed.

Lemma decode_uXXXX_rendered (a b c d : hexdigit) (rest : string) :
  is_hexdigit a = true -> is_hexdigit b = true ->
  is_hexdigit c = true -> is_hexdigit d = true ->
  decode_uXXXX
    (String (hex_letter a) (String (hex_letter b) (String (hex_letter c)
       (String (hex_letter d) rest))))
  = Some (code a b c d, rest).
Proof.
  intros Ha Hb Hc Hd. unfold decode_uXXXX.
  rewrite !hex_value_letter by assumption. reflexivity.
Qed.

Lemma scan_unicode_escape_single (a b c d : hexdigit) (rest : string) :
  wf_char (Unicode a b c d) = true ->
  scan_unicode_escape
    (String (hex_letter a) (String (hex_letter b) (String (hex_letter c)
       (String (hex_letter d) rest))))
  = Scanned (chr (code a b c d)) rest.
Proof.
  cbn [wf_char]. rewrite !andb_true_iff.
  intros [[[[Ha Hb] Hc] Hd] Hr].
  unfold scan_unicode_escape. rewrite decode_uXXXX_rendered by assumption.
  assert (Hhigh : ((55296 <=? code a b c d)%N
                   && (code a b c d <=? 56319)%N) = false).
  { apply orb_true_iff in Hr. apply andb_false_iff.
    destruct Hr as [Hr|Hr].
    - left. apply N.ltb_lt in Hr. apply N.leb_gt. exact Hr.
    - right. apply N.ltb_lt in Hr. apply N.leb_gt. lia. }
  rewrite Hhigh. reflexivity.
Qed.

Lemma scan_unicode_escape_pair (a b c d a' b' c' d' : hexdigit)
    (rest : string) :
  wf_char (Pair a b c d a' b' c' d') = true ->
  scan_unicode_escape
    (String (hex_letter a) (String (hex_letter b) (String (hex_letter c)
       (String (hex_letter d) (render_hex4 a' b' c' d' rest)))))
  = Scanned
      (chr (65536 + ((code a b c d - 55296) * 1024
                     + (code a' b' c' d' - 56320)))%N)
      rest.
Proof.
  cbn [wf_char]. rewrite !andb_true_iff.
  intros [[[[[[[[[Ha Hb] Hc] Hd] Ha'] Hb'] Hc'] Hd'] [H1 H2]] [H3 H4]].
  unfold scan_unicode_escape, render_hex4.
  rewrite decode_uXXXX_rendered by assumption.
  rewrite H1, H2. cbn [andb].
  change (Ascii.eqb (ascii_of_nat 92) backslash && Ascii.eqb "u" "u")
    with true. cbv iota.
  rewrite decode_uXXXX_rendered by assumption.
  rewrite H3, H4. reflexivity.
Qed.

(** *** String literals *)

Lemma stringchunk_plain (c : ascii) (s : string) :
  wf_char (Plain c) = true ->
  stringchunk (String c s) =
  match stringchunk s with
  | Some (content, t, rest) => Some (String c content, t, rest)
  | None => None
  end.
Proof.
  cbn [wf_char]. rewrite !andb_true_iff, !negb_true_iff.
  intros [[H32 H34] H92]. cbn [stringchunk].
  assert (Hq : Ascii.eqb c dquote = false).
  { apply Ascii.eqb_neq. intros ->. discriminate H34. }
  assert (Hb : Ascii.eqb c backslash = false).
  { apply Ascii.eqb_neq. intros ->. discriminate H92. }
  assert (Hc : (nat_of_ascii c <? 32)%nat = false).
  { apply Nat.ltb_ge. apply Nat.leb_le. exact H32. }
  rewrite Hq, Hb, Hc. reflexivity.
Qed.

Lemma scanstring_loop_step (fuel : nat) (s chunks : string) :
  scanstring_loop (S fuel) s chunks =
  match stringchunk s with
  | None => Malformed
  | Some (content, terminator, rest) =>
      if Ascii.eqb terminator dquote then Scanned (chunks ++ content) rest
      else if negb (Ascii.eqb terminator backslash) then Malformed
      else
        match rest with
        | EmptyString => Malformed
        | String esc rest1 =>
            if Ascii.eqb esc "u" then
              match scan_unicode_escape rest1 with
              | Scanned char rest2 =>
                  scanstring_loop fuel rest2 ((chunks ++ content) ++ char)
              | Malformed => Malformed
              | Raised e => Raised e
              | Exhausted => Exhausted
              end
            else
              match unescape esc with
              | Some char =>
                  scanstring_loop fuel rest1
                    ((chunks ++ content) ++ String char "")
              | None => Malformed
              end
        end
  end.
Proof. reflexivity. Qed.

Lemma stringchunk_backslash (s : string) :
  stringchunk (String (ascii_of_nat 92) s)
  = Some ("", ascii_of_nat 92, s).
Proof. reflexivity. Qed.

Lemma scanstring_loop_plain (fuel : nat) (c : ascii) (s chunks : string) :
  wf_char (Plain c) = true ->
  scanstring_loop (S fuel) (String c s) chunks
  = scanstring_loop (S fuel) s (chunks ++ String c "").
Proof.
  intros Hc. rewrite !scanstring_loop_step.
  rewrite stringchunk_plain by assumption.
  destruct (stringchunk s) as [[[content t] rest]|]; [|reflexivity].
  rewrite !append_assoc. reflexivity.
Qed.

Lemma escape_letter_unescaped (e : escape) :
  Ascii.eqb (escape_letter e) "u" = false
  /\ unescape (escape_letter e) = Some (escape_char e).
Proof. destruct e; split; reflexivity. Qed.

Lemma scanstring_loop_chars (cs : list jchar) :
  forall (fuel : nat) (chunks rest : string),
  forallb wf_char cs = true ->
  length cs <= fuel ->
  scanstring_loop (S fuel) (render_chars cs (String dquote rest)) chunks
  = Scanned (chunks ++ denote_chars cs) rest.
Proof.
  induction cs as [|ch cs IH]; intros fuel chunks rest Hwf Hfuel.
  - cbn [render_chars denote_chars]. rewrite scanstring_loop_step.
    cbn [stringchunk].
    change (Ascii.eqb dquote dquote) with true. cbn [orb]. cbv iota.
    change (Ascii.eqb dquote dquote) with true. cbv iota.
    rewrite !append_empty. reflexivity.
  - cbn [forallb] in Hwf. apply andb_true_iff in Hwf.
    destruct Hwf as [Hch Hcs]. cbn [length] in Hfuel.
    destruct ch as [c|e|a b c d|a b c d a' b' c' d'];
      cbn [render_chars denote_chars].
    + rewrite scanstring_loop_plain by assumption.
      rewrite IH by (assumption || lia).
      rewrite append_assoc. reflexivity.
    + destruct fuel as [|fuel]; [lia|].
      destruct (escape_letter_unescaped e) as [Hu He].
      rewrite scanstring_loop_step, stringchunk_backslash.
      change (Ascii.eqb (ascii_of_nat 92) dquote) with false.
      change (Ascii.eqb (ascii_of_nat 92) backslash) with true.
      cbn [negb]. cbv iota. rewrite Hu, He.
      rewrite IH by (assumption || lia).
      rewrite append_empty, append_assoc. reflexivity.
    + destruct fuel as [|fuel]; [lia|].
      unfold render_hex4.
      rewrite scanstring_loop_step, stringchunk_backslash.
      change (Ascii.eqb (ascii_of_nat 92) dquote) with false.
      change (Ascii.eqb (ascii_of_nat 92) backslash) with true.
      cbn [negb]. cbv iota.
      change (Ascii.eqb "u" "u") with true. cbv iota.
      rewrite scan_unicode_escape_single by assumption.
      rewrite IH by (assumption || lia).
      rewrite append_empty, append_assoc. reflexivity.
    + destruct fuel as [|fuel]; [lia|].
      unfold render_hex4 at 1.
      rewrite scanstring_loop_step, stringchunk_backslash.
      change (Ascii.eqb (ascii_of_nat 92) dquote) with false.
      change (Ascii.eqb (ascii_of_nat 92) backslash) with true.
      cbn [negb]. cbv iota.
      change (Ascii.eqb "u" "u") with true. cbv iota.
      rewrite scan_unicode_escape_pair by assumption.
      rewrite IH by (assumption || lia).
      rewrite append_empty, append_assoc. reflexivity.
Qed.

Lemma render_chars_length (cs : list jchar) (rest : string) :
  length cs <= String.length (render_chars cs rest).
Proof.
  induction cs as [|ch cs IH]; cbn [length render_chars]; [lia|].
  destruct ch; unfold render_hex4; cbn [String.length]; lia.
Qed.

Lemma scanstring_chars (cs : list jchar) (rest : string) :
  forallb wf_char cs = true ->
  scanstring (render_chars cs (String dquote rest))
  = Scanned (denote_chars cs) rest.
Proof.
  intros Hwf. unfold scanstring.
  rewrite scanstring_loop_chars; [reflexivity|assumption|].
  apply render_chars_length.
Qed.

End FlatText.

(** *** Objects *)

Section FlatObjects.

Import json flat.

(** The value scanner the object loop is given: any scanner with fuel for
    one more level. *)
Variable n : nat.

Local Abbreviation scan := (scan_once (S n)).

(** A member after the opening quote of its key, followed by [after]. *)
Local Abbreviation member_text m after :=
  (render_chars (key m)
     (String dquote
        (after_key m ++ String ":" (before_value m
           ++ render_literal (value m) (after_value m ++ after))))).

Local Abbreviation member_pair m :=
  (denote_chars (key m), PyStr (denote_chars (value m))).

Lemma scan_once_literal (cs : list jchar) (rest : string) :
  forallb wf_char cs = true ->
  scan (render_literal cs rest) = Scanned (PyStr (denote_chars cs)) rest.
Proof.
  intros Hwf. unfold render_literal. cbn [scan_once].
  change (Ascii.eqb (ascii_of_nat 34) dquote) with true. cbv iota.
  change (ascii_of_nat 34) with dquote.
  rewrite scanstring_chars by assumption. reflexivity.
Qed.

Lemma object_loop_step (fuel : nat) (s : string)
    (pairs : list (string * pyval)) :
  object_loop scan (S fuel) s pairs =
  match scanstring s with
  | Scanned key rest =>
      match skip_ws rest with
      | String colon rest1 =>
          if negb (Ascii.eqb colon ":") then Malformed
          else
            match scan (skip_ws rest1) with
            | Scanned value rest2 =>
                match skip_ws rest2 with
                | String nextchar rest3 =>
                    if Ascii.eqb nextchar "}" then
                      Scanned
                        (PyDict (dict_of_pairs (pairs ++ [(key, value)])%list))
                        rest3
                    else if Ascii.eqb nextchar "," then
                      match skip_ws rest3 with
                      | String q rest4 =>
                          if Ascii.eqb q dquote
                          then object_loop scan fuel rest4
                                 (pairs ++ [(key, value)])%list
                          else Malformed
                      | EmptyString => Malformed
                      end
                    else Malformed
                | EmptyString => Malformed
                end
            | Malformed => Malformed
            | Raised e => Raised e
            | Exhausted => Exhausted
            end
      | EmptyString => Malformed
      end
  | Malformed => Malformed
  | Raised e => Raised e
  | Exhausted => Exhausted
  end.
Proof. reflexivity. Qed.

(** Up to the token that follows the member's value. *)
Lemma object_loop_member (fuel : nat) (m : member) (c : ascii)
    (after : string) (pairs : list (string * pyval)) :
  wf_member m = true ->
  is_ws c = false ->
  object_loop scan (S fuel) (member_text m (String c after)) pairs =
  if Ascii.eqb c "}" then
    Scanned (PyDict (dict_of_pairs (pairs ++ [member_pair m])%list)) after
  else if Ascii.eqb c "," then
    match skip_ws after with
    | String q rest4 =>
        if Ascii.eqb q dquote
        then object_loop scan fuel rest4 (pairs ++ [member_pair m])%list
        else Malformed
    | EmptyString => Malformed
    end
  else Malformed.
Proof.
  unfold wf_member. rewrite !andb_true_iff.
  intros [[[[[_ Hk] Hak] Hbv] Hv] Hav] Hc.
  rewrite object_loop_step, scanstring_chars by assumption.
  rewrite skip_ws_space, skip_ws_token by (assumption || reflexivity).
  change (negb (Ascii.eqb ":" ":")) with false. cbv iota.
  rewrite skip_ws_space by assumption.
  unfold render_literal at 1.
  rewrite skip_ws_token by reflexivity.
  fold (render_literal (value m) (after_value m ++ String c after)).
  rewrite scan_once_literal by assumption.
  rewrite skip_ws_space, skip_ws_token by assumption.
  reflexivity.
Qed.

Lemma object_loop_members (ms : list member) :
  forall (m : member) (fuel : nat) (pairs : list (string * pyval))
         (rest : string),
  wf_member m = true ->
  forallb wf_member ms = true ->
  length ms <= fuel ->
  object_loop scan (S fuel) (member_text m (render_more ms rest)) pairs
  = Scanned
      (PyDict
         (dict_of_pairs
            (pairs ++ map (fun m0 => member_pair m0) (m :: ms))%list))
      rest.
Proof.
  induction ms as [|m' ms IH]; intros m fuel pairs rest Hm Hms Hfuel.
  - cbn [render_more].
    rewrite object_loop_member by (assumption || reflexivity).
    reflexivity.
  - cbn [forallb] in Hms. apply andb_true_iff in Hms.
    destruct Hms as [Hm' Hms]. cbn [length] in Hfuel.
    destruct fuel as [|fuel]; [lia|].
    cbn [render_more].
    rewrite object_loop_member by (assumption || reflexivity).
    change (Ascii.eqb "," "}") with false.
    change (Ascii.eqb "," ",") with true. cbv iota.
    unfold render_member at 1. unfold render_literal at 1.
    assert (Hbk : is_space (before_key m') = true).
    { unfold wf_member in Hm'. rewrite !andb_true_iff in Hm'. tauto. }
    rewrite skip_ws_space, skip_ws_token by (assumption || reflexivity).
    change (Ascii.eqb dquote dquote) with true. cbv iota.
    rewrite IH by (assumption || lia).
    cbn [map]. rewrite <- app_assoc. reflexivity.
Qed.

Lemma render_chars_grows (cs : list jchar) (rest : string) :
  String.length rest <= String.length (render_chars cs rest).
Proof.
  induction cs as [|ch cs IH]; cbn [render_chars]; [lia|].
  destruct ch; unfold render_hex4; cbn [String.length]; lia.
Qed.

Lemma render_member_grows (m : member) (rest : string) :
  S (String.length rest) <= String.length (render_member m rest).
Proof.
  unfold render_member, render_literal.
  rewrite length_append. cbn [String.length].
  pose proof (render_chars_grows (key m)
    (String (ascii_of_nat 34)
       (after_key m ++ String ":" (before_value m
          ++ String (ascii_of_nat 34)
               (render_chars (value m)
                  (String (ascii_of_nat 34) (after_value m ++ rest)))))))
    as H1.
  cbn [String.length] in H1. rewrite length_append in H1.
  cbn [String.length] in H1. rewrite length_append in H1.
  cbn [String.length] in H1.
  pose proof (render_chars_grows (value m)
    (String (ascii_of_nat 34) (after_value m ++ rest))) as H2.
  cbn [String.length] in H2. rewrite length_append in H2.
  lia.
Qed.

Lemma render_more_length (ms : list member) (rest : string) :
  length ms <= String.length (render_more ms rest).
Proof.
  induction ms as [|m ms IH]; cbn [length render_more String.length];
    [lia|].
  pose proof (render_member_grows m (render_more ms rest)). lia.
Qed.

End FlatObjects.

(** *** Documents *)

Section FlatDocuments.

Import json flat.

Lemma distinct_NoDup (ks : list string) : distinct ks = true -> NoDup ks.
Proof.
  induction ks as [|k ks IH]; cbn [distinct]; [constructor|].
  intros H. apply andb_true_iff in H. destruct H as [Hk Hks].
  constructor; [|exact (IH Hks)].
  intros Hin. apply existsb_eqb_In in Hin.
  rewrite Hin in Hk. discriminate.
Qed.

Lemma dict_set_fresh (d : list (string * pyval)) (k : string) (v : pyval) :
  ~ In k (map fst d) -> dict_set d k v = (d ++ [(k, v)])%list.
Proof.
  induction d as [|[k' v'] d IH]; cbn [dict_set map fst app In];
    [reflexivity|].
  intros Hnot. destruct (String.eqb_spec k' k) as [->|Hne].
  - exfalso. apply Hnot. now left.
  - rewrite IH; [reflexivity|]. intros Hin. apply Hnot. now right.
Qed.

Lemma fold_dict_set_distinct (pairs : list (string * pyval)) :
  forall d : list (string * pyval),
  NoDup (map fst d ++ map fst pairs) ->
  fold_left (fun d kv => dict_set d (fst kv) (snd kv)) pairs d
  = (d ++ pairs)%list.
Proof.
  induction pairs as [|[k v] pairs IH]; intros d Hnd; cbn [fold_left].
  - now rewrite app_nil_r.
  - cbn [map fst snd] in *.
    rewrite dict_set_fresh.
    + rewrite IH.
      * rewrite <- app_assoc. reflexivity.
      * rewrite map_app. cbn [map fst]. rewrite <- app_assoc. exact Hnd.
    + intros Hin. apply NoDup_remove_2 in Hnd. apply Hnd.
      apply in_or_app. now left.
Qed.

Lemma dict_of_pairs_distinct (pairs : list (string * pyval)) :
  distinct (map fst pairs) = true -> dict_of_pairs pairs = pairs.
Proof.
  intros H. unfold dict_of_pairs.
  rewrite fold_dict_set_distinct; [reflexivity|].
  cbn [map app]. now apply distinct_NoDup.
Qed.

Lemma scan_once_object (fuel : nat) (s : string) :
  scan_once (S fuel) (String "{" s)
  = JSONObject (scan_once fuel) (S (String.length s)) s.
Proof. reflexivity. Qed.

Lemma render_members_length (d : document) :
  length (members d) <= String.length (render_members d).
Proof.
  unfold render_members. destruct (members d) as [|m ms]; [cbn; lia|].
  pose proof (render_more_length ms (trailing d)).
  pose proof (render_member_grows m (render_more ms (trailing d))).
  cbn [length]. lia.
Qed.

Lemma JSONObject_flat (n fuel : nat) (d : document) :
  is_space (inside d) = true ->
  forallb wf_member (members d) = true ->
  length (members d) <= fuel ->
  JSONObject (scan_once (S n)) fuel (render_members d)
  = Scanned
      (PyDict
         (dict_of_pairs
            (map (fun m => (denote_chars (key m),
                            PyStr (denote_chars (value m))))
               (members d))))
      (trailing d).
Proof.
  intros Hi Hms Hfuel. unfold JSONObject, render_members.
  destruct (members d) as [|m ms]; cbv beta iota.
  - rewrite skip_ws_space, skip_ws_token by (assumption || reflexivity).
    reflexivity.
  - cbn [forallb] in Hms. apply andb_true_iff in Hms.
    destruct Hms as [Hm Hms]. cbn [length] in Hfuel.
    destruct fuel as [|fuel]; [lia|].
    assert (Hbk : is_space (before_key m) = true).
    { unfold wf_member in Hm. rewrite !andb_true_iff in Hm. tauto. }
    unfold render_member at 1. unfold render_literal at 1.
    rewrite skip_ws_space, skip_ws_token by (assumption || reflexivity).
    change (Ascii.eqb (ascii_of_nat 34) dquote) with true. cbv iota.
    change (ascii_of_nat 34) with dquote at 1.
    rewrite object_loop_members; [reflexivity|assumption|assumption|lia].
Qed.

Lemma bom_not_prefix (ws rest : string) :
  is_space ws = true ->
  String.prefix bom (ws ++ String "{" rest) = false.
Proof.
  destruct ws as [|c ws]; [reflexivity|].
  cbn [is_space]. intros H. apply andb_true_iff in H. destruct H as [Hc _].
  unfold bom. cbn [append String.prefix].
  destruct (ascii_dec (ascii_of_nat 239) c) as [<-|]; [discriminate Hc|].
  reflexivity.
Qed.

Lemma render_not_empty (d : document) : render d <> "".
Proof.
  unfold render. destruct (leading d); cbn [append]; discriminate.
Qed.

(** The decoder accepts the text of every well-formed tree and returns
    the mapping the tree denotes. *)
Lemma loads_flat (d : document) :
  well_formed d = true ->
  loads (render d) = Return (to_dict (denote d)).
Proof.
  unfold well_formed. rewrite !andb_true_iff.
  intros [[[[Hl Hi] Ht] Hms] Hdist].
  assert (Hlen : exists n, String.length (render d) = S n).
  { unfold render. rewrite length_append. cbn [String.length].
    rewrite Nat.add_succ_r. eexists. reflexivity. }
  destruct Hlen as [n Hn].
  unfold loads. rewrite Hn. unfold render.
  rewrite bom_not_prefix by assumption.
  rewrite skip_ws_space, skip_ws_token by (assumption || reflexivity).
  rewrite scan_once_object.
  rewrite JSONObject_flat
    by (assumption || (pose proof (render_members_length d); lia)).
  rewrite skip_ws_all_space by assumption.
  unfold to_dict, denote. rewrite map_map. cbn [fst snd].
  rewrite dict_of_pairs_distinct; [reflexivity|].
  unfold denote in Hdist. rewrite map_map in Hdist |- *. exact Hdist.
Qed.

Lemma to_dict_flat (pairs : list (string * string)) :
  is_flat_mapping (to_dict pairs) = true.
Proof.
  unfold to_dict, is_flat_mapping. rewrite forallb_forall.
  intros kv Hin. apply in_map_iff in Hin. destruct Hin as [x [<- _]].
  reflexivity.
Qed.

End FlatDocuments.

(** ** The claims that need the decoder *)

(** C4.  Every text that encodes a flat string-to-string mapping (the
    rendering of a well-formed tree) is accepted by the decoder, which
    returns exactly the mapping the text denotes; the mapping step of
    [prepare_croissant_builder] returns that value, and the collaborator
    is constructed once, with that value as [mapping]. *)
Theorem flat_mapping_text_is_parsed_and_forwarded
    (C : Collaborator) (d : flat.document)
    (j : string) (rs : option (list string)) (f o : string) (w : World C) :
  flat.well_formed d = true ->
  let text := flat.render d in
  let value := flat.to_dict (flat.denote d) in
  json.loads text = Return value
  /\ is_flat_mapping value = true
  /\ run (parse_mapping json.loads (Some text)) w
     = (Return value, mkState [call_json_loads text] w)
  /\ constructed
       (calls
          (snd (run (prepare_croissant_builder json.loads C j rs f o
                       (Some text)) w)))
     = [mkBuilderArgs j (if truthy_seq rs then rs else None) f o value].
Proof.
  intros Hwf text value.
  pose proof (loads_flat d Hwf) as Hl. fold text value in Hl.
  assert (Hp : run (parse_mapping json.loads (Some text)) w
               = (Return value, mkState [call_json_loads text] w)).
  { unfold run. rewrite parse_mapping_text by apply render_not_empty.
    cbv zeta. rewrite Hl. reflexivity. }
  repeat split.
  - exact Hl.
  - apply to_dict_flat.
  - exact Hp.
  - pose proof (constructed_by_run json.loads C j rs f o (Some text) w) as H.
    cbv zeta in H. rewrite Hp in H. exact H.
Qed.

(** Witness for C4, the example of the specification: the text
    [{"a.csv": "/home/u/a.csv"}] reaches the collaborator as the mapping
    of [a.csv] to [/home/u/a.csv]. *)
Lemma flat_mapping_text_witness :
  flat.well_formed home_mapping = true
  /\ flat.render home_mapping = dq "{'a.csv': '/home/u/a.csv'}"
  /\ constructed
       (calls
          (snd (run (prepare_croissant_builder json.loads quiet
                       "/tmp/d.json" None "tfrecord" "/tmp/out"
                       (Some (dq "{'a.csv': '/home/u/a.csv'}"))) 0)))
     = [mkBuilderArgs "/tmp/d.json" None "tfrecord" "/tmp/out"
          (PyDict [("a.csv", PyStr "/home/u/a.csv")])].
Proof.
  assert (Hwf : flat.well_formed home_mapping = true) by reflexivity.
  split; [exact Hwf|]. split; [reflexivity|].
  exact (proj2 (proj2 (proj2
    (flat_mapping_text_is_parsed_and_forwarded quiet home_mapping
       "/tmp/d.json" None "tfrecord" "/tmp/out" 0 Hwf)))).
Defined.

(** ** The decoder never runs out of fuel *)

Section Fuel.

Import json.

(** A scanner's answer on [s] is in order when it is not [Exhausted] and
    what it leaves is shorter than [s]. *)
Local Abbreviation in_order r s :=
  (r <> Exhausted
   /\ forall a rest,
        r = Scanned a rest -> String.length rest < String.length s).

Lemma skip_ws_length (s : string) :
  String.length (skip_ws s) <= String.length s.
Proof.
  induction s as [|c s IH]; cbn [skip_ws]; [lia|].
  destruct (is_ws c); cbn [String.length]; lia.
Qed.

Lemma stringchunk_length (s content rest : string) (t : ascii) :
  stringchunk s = Some (content, t, rest) ->
  String.length rest < String.length s.
Proof.
  revert content. induction s as [|c s IH]; intros content;
    cbn [stringchunk]; [discriminate|].
  destruct (_ || _).
  - intros [= _ _ <-]. cbn. lia.
  - destruct (stringchunk s) as [[[content' t'] rest']|]; [|discriminate].
    intros [= _ <- <-]. specialize (IH _ eq_refl). cbn. lia.
Qed.

Lemma decode_uXXXX_length (s rest : string) (uni : N) :
  decode_uXXXX s = Some (uni, rest) ->
  String.length s = 4 + String.length rest.
Proof.
  unfold decode_uXXXX.
  destruct s as [|a [|b [|c [|d s]]]]; try discriminate.
  destruct (hex_value a), (hex_value b), (hex_value c), (hex_value d);
    try discriminate.
  intros [= _ <-]. reflexivity.
Qed.

Lemma scan_unicode_escape_in_order (s : string) :
  in_order (scan_unicode_escape s) s.
Proof.
  unfold scan_unicode_escape.
  destruct (decode_uXXXX s) as [[uni rest]|] eqn:H1;
    [|split; [discriminate|intros ? ? [=]]].
  apply decode_uXXXX_length in H1.
  assert (Hone : in_order (Scanned (chr uni) rest) s).
  { split; [discriminate|]. intros a r [= _ <-]. lia. }
  destruct (_ && _); [|exact Hone].
  destruct rest as [|b [|u rest2]]; try exact Hone.
  destruct (_ && _); [|exact Hone].
  destruct (decode_uXXXX rest2) as [[uni2 rest3]|] eqn:H2;
    [|split; [discriminate|intros ? ? [=]]].
  apply decode_uXXXX_length in H2.
  destruct (_ && _); [|exact Hone].
  split; [discriminate|]. intros a r [= _ <-].
  cbn [String.length] in H1. lia.
Qed.

Lemma scanstring_loop_in_order (fuel : nat) :
  forall s chunks : string,
  String.length s < fuel ->
  in_order (scanstring_loop fuel s chunks) s.
Proof.
  induction fuel as [|fuel IH]; intros s chunks Hlen; [lia|].
  rewrite scanstring_loop_step.
  destruct (stringchunk s) as [[[content t] rest]|] eqn:Hc;
    [|split; [discriminate|intros ? ? [=]]].
  apply stringchunk_length in Hc.
  destruct (Ascii.eqb t dquote).
  { split; [discriminate|]. intros a r [= _ <-]. exact Hc. }
  destruct (negb _); [split; [discriminate|intros ? ? [=]]|].
  destruct rest as [|esc rest1]; [split; [discriminate|intros ? ? [=]]|].
  cbn [String.length] in Hc.
  destruct (Ascii.eqb esc "u").
  - destruct (scan_unicode_escape_in_order rest1) as [Hne Hsh].
    destruct (scan_unicode_escape rest1) as [char rest2| |e|];
      [|split; [discriminate|intros ? ? [=]]
       |split; [discriminate|intros ? ? [=]]|congruence].
    specialize (Hsh _ _ eq_refl).
    destruct (IH rest2 ((chunks ++ content) ++ char)) as [H1 H2]; [lia|].
    split; [exact H1|]. intros a r Hr. specialize (H2 _ _ Hr). lia.
  - destruct (unescape esc) as [char|];
      [|split; [discriminate|intros ? ? [=]]].
    destruct (IH rest1 ((chunks ++ content) ++ String char "")) as [H1 H2];
      [lia|].
    split; [exact H1|]. intros a r Hr. specialize (H2 _ _ Hr). lia.
Qed.

Lemma scanstring_in_order (s : string) : in_order (scanstring s) s.
Proof. apply scanstring_loop_in_order. lia. Qed.

(** *** Constants and numbers *)

Lemma strip_prefix_length (p s rest : string) :
  strip_prefix p s = Some rest ->
  String.length s = String.length p + String.length rest.
Proof.
  revert s. induction p as [|a p IH]; intros s; cbn [strip_prefix].
  - intros [= <-]. reflexivity.
  - destruct s as [|b s]; [discriminate|].
    destruct (Ascii.eqb a b); [|discriminate].
    intros H. apply IH in H. cbn [String.length]. lia.
Qed.

Lemma span_digits_length (s ds rest : string) :
  span_digits s = (ds, rest) -> String.length rest <= String.length s.
Proof.
  revert ds. induction s as [|c s IH]; intros ds; cbn [span_digits].
  - intros [= _ <-]. lia.
  - destruct (is_digit c).
    + destruct (span_digits s) as [ds' rest'] eqn:Hs.
      intros [= _ <-]. specialize (IH _ eq_refl). cbn. lia.
    + intros [= _ <-]. lia.
Qed.

Lemma match_integer_length (s text rest : string) :
  match_integer s = Some (text, rest) ->
  String.length rest < String.length s.
Proof.
  unfold match_integer.
  assert (Hdigits : forall sign s1,
    String.length s1 <= String.length s ->
    match s1 with
    | String c r =>
        if Ascii.eqb c "0" then Some (sign ++ "0", r)
        else if is_digit c then
          let (ds, r') := span_digits r in Some (sign ++ String c ds, r')
        else None
    | EmptyString => None
    end = Some (text, rest) ->
    String.length rest < String.length s).
  { intros sign [|c r] Hle; [discriminate|]. cbn [String.length] in Hle.
    destruct (Ascii.eqb c "0"); [intros [= _ <-]; lia|].
    destruct (is_digit c); [|discriminate].
    destruct (span_digits r) as [ds r'] eqn:Hs.
    apply span_digits_length in Hs. intros [= _ <-]. lia. }
  destruct s as [|c r]; [discriminate|].
  destruct (Ascii.eqb c "-");
    [apply (Hdigits "-" r)|apply (Hdigits "" (String c r))];
    cbn [String.length]; lia.
Qed.

Lemma match_frac_length (s frac rest : string) :
  match_frac s = (frac, rest) -> String.length rest <= String.length s.
Proof.
  unfold match_frac. destruct s as [|c r]; [intros [= _ <-]; lia|].
  destruct (Ascii.eqb c "."); [|intros [= _ <-]; lia].
  destruct (span_digits r) as [[|d ds] r'] eqn:Hs;
    apply span_digits_length in Hs; intros [= _ <-];
    cbn [String.length]; lia.
Qed.

Lemma match_exp_length (s exp rest : string) :
  match_exp s = (exp, rest) -> String.length rest <= String.length s.
Proof.
  unfold match_exp. destruct s as [|c r]; [intros [= _ <-]; lia|].
  destruct (_ || _); [|intros [= _ <-]; lia].
  assert (Hr1 : forall sign r1,
    String.length r1 <= String.length r ->
    match span_digits r1 with
    | (EmptyString, _) => ("", String c r)
    | (ds, r2) => (String c (sign ++ ds), r2)
    end = (exp, rest) ->
    String.length rest <= String.length (String c r)).
  { intros sign r1 Hle.
    destruct (span_digits r1) as [[|d ds] r2] eqn:Hs;
      apply span_digits_length in Hs; intros [= _ <-];
      cbn [String.length]; lia. }
  destruct r as [|d r']; [apply (Hr1 "" ""); lia|].
  destruct (_ || _);
    [apply (Hr1 (String d "") r')|apply (Hr1 "" (String d r'))];
    cbn [String.length]; lia.
Qed.

Lemma match_number_length (s integer frac exp rest : string) :
  match_number s = Some (integer, frac, exp, rest) ->
  String.length rest < String.length s.
Proof.
  unfold match_number.
  destruct (match_integer s) as [[integer' r]|] eqn:Hi; [|discriminate].
  apply match_integer_length in Hi.
  destruct (match_frac r) as [frac' r1] eqn:Hf. apply match_frac_length in Hf.
  destruct (match_exp r1) as [exp' r2] eqn:He. apply match_exp_length in He.
  intros [= _ _ _ <-]. lia.
Qed.

Lemma scan_number_in_order (s : string) (r : scan pyval) :
  scan_number s = Some r -> in_order r s.
Proof.
  unfold scan_number.
  destruct (match_number s) as [[[[integer frac] exp] rest]|] eqn:Hm;
    [|discriminate].
  apply match_number_length in Hm.
  destruct frac, exp; try destruct (int integer); intros [= <-];
    (split; [discriminate|]); intros v r' [=]; subst; exact Hm.
Qed.

Lemma scan_constant_in_order (s : string) : in_order (scan_constant s) s.
Proof.
  unfold scan_constant.
  repeat match goal with
  | |- context [strip_prefix ?p s] =>
      let H := fresh "H" in
      destruct (strip_prefix p s) eqn:H;
      [apply strip_prefix_length in H; cbn [String.length] in H;
       split; [discriminate|intros ? ? [= _ <-]; lia]|]
  | |- context [scan_number s] =>
      let H := fresh "H" in
      destruct (scan_number s) eqn:H;
      [exact (scan_number_in_order _ _ H)|]
  end.
  split; [discriminate|intros ? ? [=]].
Qed.

(** *** Containers *)

Lemma array_loop_in_order (scan : string -> scan pyval) (k : nat) :
  (forall s, String.length s < k -> in_order (scan s) s) ->
  forall (fuel : nat) (s : string) (values : list pyval),
  String.length s < k -> String.length s < fuel ->
  in_order (array_loop scan fuel s values) s.
Proof.
  intros Hscan. induction fuel as [|fuel IH]; intros s values Hk Hfuel;
    [lia|].
  cbn [array_loop]. destruct (Hscan s Hk) as [Hne Hsh].
  destruct (scan s) as [value rest| |e|];
    [|split; [discriminate|intros ? ? [=]]
     |split; [discriminate|intros ? ? [=]]|congruence].
  specialize (Hsh _ _ eq_refl). pose proof (skip_ws_length rest) as Hws.
  destruct (skip_ws rest) as [|c rest1];
    [split; [discriminate|intros ? ? [=]]|].
  cbn [String.length] in Hws.
  destruct (Ascii.eqb c "]").
  { split; [discriminate|]. intros a r [= _ <-]. lia. }
  destruct (Ascii.eqb c ","); [|split; [discriminate|intros ? ? [=]]].
  pose proof (skip_ws_length rest1) as Hws1.
  destruct (IH (skip_ws rest1) (values ++ [value])%list) as [H1 H2];
    [lia|lia|].
  split; [exact H1|]. intros a r Hr. specialize (H2 _ _ Hr). lia.
Qed.

Lemma JSONArray_in_order (scan : string -> scan pyval) (k fuel : nat)
    (s : string) :
  (forall s, String.length s < k -> in_order (scan s) s) ->
  String.length s < k -> String.length s < fuel ->
  in_order (JSONArray scan fuel s) (String "[" s).
Proof.
  intros Hscan Hk Hfuel. unfold JSONArray.
  pose proof (skip_ws_length s) as Hws.
  assert (Hloop : in_order (array_loop scan fuel (skip_ws s) [])
                    (String "[" s)).
  { destruct (array_loop_in_order scan k Hscan fuel (skip_ws s) [])
      as [H1 H2]; [lia|lia|].
    split; [exact H1|]. intros a r Hr. specialize (H2 _ _ Hr).
    cbn [String.length]. lia. }
  destruct (skip_ws s) as [|c rest] eqn:Hs; [exact Hloop|].
  destruct (Ascii.eqb c "]"); [|exact Hloop].
  split; [discriminate|]. intros a r [= _ <-].
  cbn [String.length] in *. lia.
Qed.

Lemma object_loop_in_order (scan : string -> scan pyval) (k : nat) :
  (forall s, String.length s < k -> in_order (scan s) s) ->
  forall (fuel : nat) (s : string) (pairs : list (string * pyval)),
  String.length s < k -> String.length s < fuel ->
  in_order (object_loop scan fuel s pairs) s.
Proof.
  intros Hscan. induction fuel as [|fuel IH]; intros s pairs Hk Hfuel;
    [lia|].
  cbn [object_loop]. destruct (scanstring_in_order s) as [Hne Hsh].
  destruct (scanstring s) as [key rest| |e|];
    [|split; [discriminate|intros ? ? [=]]
     |split; [discriminate|intros ? ? [=]]|congruence].
  specialize (Hsh _ _ eq_refl). pose proof (skip_ws_length rest) as Hws.
  destruct (skip_ws rest) as [|colon rest1];
    [split; [discriminate|intros ? ? [=]]|].
  cbn [String.length] in Hws.
  destruct (negb _); [split; [discriminate|intros ? ? [=]]|].
  pose proof (skip_ws_length rest1) as Hws1.
  destruct (Hscan (skip_ws rest1)) as [Hne2 Hsh2]; [lia|].
  destruct (scan (skip_ws rest1)) as [value rest2| |e|];
    [|split; [discriminate|intros ? ? [=]]
     |split; [discriminate|intros ? ? [=]]|congruence].
  specialize (Hsh2 _ _ eq_refl). pose proof (skip_ws_length rest2) as Hws2.
  destruct (skip_ws rest2) as [|nextchar rest3];
    [split; [discriminate|intros ? ? [=]]|].
  cbn [String.length] in Hws2.
  destruct (Ascii.eqb nextchar "}").
  { split; [discriminate|]. intros a r [= _ <-]. lia. }
  destruct (Ascii.eqb nextchar ","); [|split; [discriminate|intros ? ? [=]]].
  pose proof (skip_ws_length rest3) as Hws3.
  destruct (skip_ws rest3) as [|q rest4];
    [split; [discriminate|intros ? ? [=]]|].
  cbn [String.length] in Hws3.
  destruct (Ascii.eqb q dquote); [|split; [discriminate|intros ? ? [=]]].
  destruct (IH rest4 (pairs ++ [(key, value)])%list) as [H1 H2];
    [lia|lia|].
  split; [exact H1|]. intros a r Hr. specialize (H2 _ _ Hr). lia.
Qed.

Lemma JSONObject_in_order (scan : string -> scan pyval) (k fuel : nat)
    (s : string) :
  (forall s, String.length s < k -> in_order (scan s) s) ->
  String.length s < k -> String.length s < fuel ->
  in_order (JSONObject scan fuel s) (String "{" s).
Proof.
  intros Hscan Hk Hfuel. unfold JSONObject.
  pose proof (skip_ws_length s) as Hws.
  destruct (skip_ws s) as [|c rest];
    [split; [discriminate|intros ? ? [=]]|].
  cbn [String.length] in Hws.
  destruct (Ascii.eqb c dquote).
  - destruct (object_loop_in_order scan k Hscan fuel rest []) as [H1 H2];
      [lia|lia|].
    split; [exact H1|]. intros a r Hr. specialize (H2 _ _ Hr).
    cbn [String.length]. lia.
  - destruct (Ascii.eqb c "}"); [|split; [discriminate|intros ? ? [=]]].
    split; [discriminate|]. intros a r [= _ <-]. cbn [String.length]. lia.
Qed.

(** *** The scanner and [loads] *)

Lemma scan_once_in_order (fuel : nat) :
  forall s : string,
  String.length s < fuel -> in_order (scan_once fuel s) s.
Proof.
  induction fuel as [|fuel IH]; intros s Hlen; [lia|].
  cbn [scan_once].
  destruct s as [|c rest]; [split; [discriminate|intros ? ? [=]]|].
  cbn [String.length] in Hlen.
  destruct (Ascii.eqb c dquote).
  { destruct (scanstring_in_order rest) as [Hne Hsh].
    destruct (scanstring rest) as [text rest'| |e|];
      [|split; [discriminate|intros ? ? [=]]
       |split; [discriminate|intros ? ? [=]]|congruence].
    specialize (Hsh _ _ eq_refl).
    split; [discriminate|]. intros a r [= _ <-]. cbn [String.length]. lia. }
  destruct (Ascii.eqb c "{").
  { destruct (JSONObject_in_order (scan_once fuel) fuel
                (S (String.length rest)) rest IH) as [H1 H2]; [lia|lia|].
    split; [exact H1|]. intros a r Hr. specialize (H2 _ _ Hr).
    cbn [String.length] in *. lia. }
  destruct (Ascii.eqb c "[").
  { destruct (JSONArray_in_order (scan_once fuel) fuel
                (S (String.length rest)) rest IH) as [H1 H2]; [lia|lia|].
    split; [exact H1|]. intros a r Hr. specialize (H2 _ _ Hr).
    cbn [String.length] in *. lia. }
  apply scan_constant_in_order.
Qed.

(** [loads] gives its document enough fuel: it returns a value, raises
    [JSONDecodeError], or passes on the exception of a conversion. *)
Lemma loads_total (s : string) :
  (exists v, loads s = Return v)
  \/ loads s = Raise (JSONDecodeError s)
  \/ (exists e, loads s = Raise e
                /\ scan_once (S (String.length s)) (skip_ws s) = Raised e).
Proof.
  unfold loads. destruct (String.prefix bom s); [right; left; reflexivity|].
  pose proof (skip_ws_length s) as Hws.
  destruct (scan_once_in_order (S (String.length s)) (skip_ws s))
    as [Hne _]; [lia|].
  destruct (scan_once (S (String.length s)) (skip_ws s)) as [obj rest| |e|];
    [|right; left; reflexivity|right; right; eexists; split; reflexivity
     |congruence].
  destruct (skip_ws rest);
    [left; eexists; reflexivity|right; left; reflexivity].
Qed.

End Fuel.

(** * More of the command *)

(** ** How [parse_args] fills the namespace *)








(** ** The claims about the command line *)





(** ** The calls of one invocation *)

Section Outcomes.

Variable json_loads : string -> result pyval.
Variable C : Collaborator.

(** The mapping step calls the decoder on the texts of [texts_to_decode]
    and on nothing else, and leaves the world as it was. *)
Lemma parse_mapping_state (m : option string) (w : World C) :
  snd (run (parse_mapping json_loads m) w)
  = mkState (map call_json_loads (texts_to_decode m)) w.
Proof.
  unfold run. destruct m as [[|c text]|].
  - reflexivity.
  - rewrite parse_mapping_text by discriminate. cbv zeta.
    destruct (json_loads (String c text)) as [v|e];
      [|destruct (is_JSONDecodeError e)]; reflexivity.
  - reflexivity.
Qed.

(** Every run is one of three: the mapping step raises; the constructor
    raises; the constructor returns a builder and [download_and_prepare]
    is called on it. *)
Lemma run_outcomes (j : string) (rs : option (list string)) (f o : string)
    (m : option string) (w : World C) :
  let ds := map (@call_json_loads C) (texts_to_decode m) in
  let out := run (prepare_croissant_builder json_loads C j rs f o m) w in
  (exists e,
     run (parse_mapping json_loads m) w = (Raise e, mkState ds w)
     /\ out = (Raise e, mkState ds w))
  \/ (exists v,
        run (parse_mapping json_loads m) w = (Return v, mkState ds w)
        /\ let kw :=
             mkBuilderArgs j (if truthy_seq rs then rs else None) f o v in
           (exists e w1,
              CroissantBuilder C kw w = (Raise e, w1)
              /\ out = (Raise e,
                        mkState (ds ++ [call_CroissantBuilder kw])%list w1))
           \/ (exists b w1 r w2,
                 CroissantBuilder C kw w = (Return b, w1)
                 /\ download_and_prepare C b w1 = (r, w2)
                 /\ out = (match r with
                           | Return _ => Return PyNone
                           | Raise e => Raise e
                           end,
                           mkState
                             (ds ++ [call_CroissantBuilder kw;
                                     call_download_and_prepare b])%list
                             w2))).
Proof.
  intros ds out.
  pose proof (parse_mapping_state m w) as Hst. fold ds in Hst.
  destruct (run (parse_mapping json_loads m) w) as [[v|e] st1] eqn:Hp;
    cbn [snd] in Hst; subst st1.
  - right. exists v. split; [reflexivity|]. cbv zeta.
    subst out. rewrite (run_after_mapping _ _ _ _ _ _ _ _ _ _ Hp).
    rewrite delegate_runs. cbn [world calls].
    destruct (CroissantBuilder C _ w) as [[b|e] w1] eqn:Hc.
    + right. destruct (download_and_prepare C b w1) as [r w2] eqn:Hd.
      exists b, w1, r, w2. split; [reflexivity|]. split; [exact Hd|].
      destruct r as [[]|e]; reflexivity.
    + left. exists e, w1. split; reflexivity.
  - left. exists e. split; [reflexivity|].
    subst out. unfold run in *. rewrite prepare_croissant_builder_runs, Hp.
    reflexivity.
Qed.

Lemma decoded_decodes (ds : list string) :
  decoded (map (@call_json_loads C) ds) = ds.
Proof.
  unfold decoded. induction ds as [|d ds IH]; cbn; [reflexivity|].
  f_equal. exact IH.
Qed.

End Outcomes.

(** X3.  [json.loads] is called at most once in an invocation: once, on
    the mapping string itself, when the mapping is a non-empty string, and
    not at all when it is [None] or empty; this holds whether the
    invocation then succeeds or fails. *)
Theorem decoder_is_called_at_most_once
    (json_loads : string -> result pyval) (C : Collaborator)
    (j : string) (rs : option (list string)) (f o : string)
    (m : option string) (w : World C) :
  decoded
    (calls (snd (run (prepare_croissant_builder json_loads C j rs f o m) w)))
  = texts_to_decode m
  /\ length (texts_to_decode m) <= 1
  /\ (forall text, In text (texts_to_decode m) -> m = Some text).
Proof.
  split; [|split].
  - destruct (run_outcomes json_loads C j rs f o m w)
      as [[e [_ ->]]|[v [_ [[e [w1 [_ ->]]]|[b [w1 [r [w2 [_ [_ ->]]]]]]]]]];
      cbn [snd calls]; rewrite ?decoded_app, decoded_decodes;
      cbn; rewrite ?app_nil_r; reflexivity.
  - destruct m as [[|c text]|]; cbn; lia.
  - intros text. destruct m as [[|c t]|]; cbn; try tauto.
    intros [<-|[]]. reflexivity.
Qed.

(** X4.  The calls of an invocation are always in this order: the
    decoder, then the constructor, then [download_and_prepare]; the
    constructor and [download_and_prepare] are called at most once each,
    and [download_and_prepare] only on the builder the constructor
    returned for the arguments it was called with. *)
Theorem calls_follow_the_protocol
    (json_loads : string -> result pyval) (C : Collaborator)
    (j : string) (rs : option (list string)) (f o : string)
    (m : option string) (w : World C) :
  let cs :=
    calls
      (snd (run (prepare_croissant_builder json_loads C j rs f o m) w)) in
  cs = (map call_json_loads (decoded cs)
        ++ map call_CroissantBuilder (constructed cs)
        ++ map call_download_and_prepare (prepared cs))%list
  /\ length (constructed cs) <= 1
  /\ length (prepared cs) <= 1
  /\ (forall b, In b (prepared cs) ->
      exists kw w1,
        constructed cs = [kw] /\ CroissantBuilder C kw w = (Return b, w1)).
Proof.
  intros cs. subst cs.
  destruct (run_outcomes json_loads C j rs f o m w)
    as [[e [_ ->]]|[v [_ [[e [w1 [Hc ->]]]|[b [w1 [r [w2 [Hc [_ ->]]]]]]]]]];
    cbn [snd calls];
    rewrite ?decoded_app, ?constructed_app, ?prepared_app,
      ?decoded_decodes, ?constructed_decodes, ?prepared_decodes;
    cbn [decoded constructed prepared flat_map app map length In];
    rewrite ?app_nil_r.
  - split; [reflexivity|]. split; [lia|]. split; [lia|]. intros b [].
  - split; [reflexivity|]. split; [lia|]. split; [lia|]. intros b [].
  - split; [reflexivity|]. split; [lia|]. split; [lia|].
    intros b' [<-|[]]. eauto.
Qed.

(** X5.  [prepare_croissant_builder] never returns a value other than
    [None], and it returns exactly when all three steps return: the
    mapping step, the constructor of the collaborator, and
    [download_and_prepare] on the builder constructed. *)
Theorem returns_none_exactly_on_success
    (json_loads : string -> result pyval) (C : Collaborator)
    (j : string) (rs : option (list string)) (f o : string)
    (m : option string) (w : World C) :
  let out := run (prepare_croissant_builder json_loads C j rs f o m) w in
  (forall r, fst out = Return r -> r = PyNone)
  /\ (fst out = Return PyNone <->
      exists v st1 b w1 w2,
        run (parse_mapping json_loads m) w = (Return v, st1)
        /\ CroissantBuilder C
             (mkBuilderArgs j (if truthy_seq rs then rs else None) f o v) w
           = (Return b, w1)
        /\ download_and_prepare C b w1 = (Return tt, w2)).
Proof.
  intros out. subst out.
  destruct (run_outcomes json_loads C j rs f o m w)
    as [[e [Hp ->]]|[v [Hp [[e [w1 [Hc ->]]]|[b [w1 [r [w2 [Hc [Hd ->]]]]]]]]]];
    cbn [fst].
  - split; [intros r [=]|]. split; [intros [=]|].
    intros [v [st1 [b [w1 [w2 [Hp' _]]]]]]. rewrite Hp in Hp'. discriminate.
  - split; [intros r [=]|]. split; [intros [=]|].
    intros [v' [st1 [b [w1' [w2 [Hp' [Hc' _]]]]]]].
    rewrite Hp in Hp'. injection Hp' as <- _. rewrite Hc in Hc'.
    discriminate.
  - destruct r as [[]|e].
    + split; [intros r [= <-]; reflexivity|]. split; [|reflexivity].
      intros _. exists v. eexists. exists b, w1, w2. repeat split; eassumption.
    + split; [intros r [=]|]. split; [intros [=]|].
      intros [v' [st1 [b' [w1' [w2' [Hp' [Hc' Hd']]]]]]].
      rewrite Hp in Hp'. injection Hp' as <- _. rewrite Hc in Hc'.
      injection Hc' as <- <-. rewrite Hd in Hd'. discriminate.
Qed.



(** X7.  A non-empty mapping made of whitespace only is not treated as
    the empty string: it is handed to the decoder, which refuses it, and
    the command raises the [ValueError] without calling the
    collaborator. *)
Theorem blank_mapping_is_refused
    (C : Collaborator) (j : string) (rs : option (list string))
    (f o text : string) (w : World C) :
  text <> "" ->
  flat.is_space text = true ->
  run (prepare_croissant_builder json.loads C j rs f o (Some text)) w
  = (Raise (ValueError ("Error parsing mapping parameter: " ++ text)
              (Some (JSONDecodeError text))),
     mkState [call_json_loads text] w).
Proof.
  intros Hne Hsp.
  assert (Hl : json.loads text = Raise (JSONDecodeError text)).
  { unfold json.loads.
    assert (Hb : String.prefix json.bom text = false).
    { destruct text as [|c t]; [congruence|].
      cbn [flat.is_space] in Hsp. apply andb_true_iff in Hsp.
      destruct Hsp as [Hc _]. unfold json.bom. cbn [String.prefix].
      destruct (ascii_dec (ascii_of_nat 239) c) as [<-|];
        [discriminate Hc|reflexivity]. }
    rewrite Hb, skip_ws_all_space by assumption. reflexivity. }
  unfold run. rewrite prepare_croissant_builder_runs.
  rewrite parse_mapping_text by assumption. cbv zeta. rewrite Hl.
  reflexivity.
Qed.

(** Witness for X7: a space and a line feed. *)
Lemma blank_mapping_witness :
  let text := String " " (String (ascii_of_nat 10) "") in
  text <> "" /\ flat.is_space text = true
  /\ fst (run (prepare_croissant_builder json.loads quiet "/tmp/d.json"
                 None "tfrecord" "/tmp/out" (Some text)) 0)
     = Raise (ValueError ("Error parsing mapping parameter: " ++ text)
                (Some (JSONDecodeError text))).
Proof.
  intros text.
  assert (H1 : text <> "") by discriminate.
  assert (H2 : flat.is_space text = true) by reflexivity.
  split; [exact H1|]. split; [exact H2|].
  exact (f_equal fst
           (blank_mapping_is_refused quiet "/tmp/d.json" None "tfrecord"
              "/tmp/out" text 0 H1 H2)).
Defined.

(** X8.  An exception raised by [prepare_croissant_builder] has one of
    four origins: it is the [ValueError] of line 126, built from the
    mapping text and chained to the decoder's [JSONDecodeError]; or an
    exception of the decoder that is not a [JSONDecodeError], passed as it
    is; or the exception the constructor of the collaborator raised; or
    the one its [download_and_prepare] raised.  Nothing else is raised. *)
Theorem failures_have_four_origins
    (json_loads : string -> result pyval) (C : Collaborator)
    (j : string) (rs : option (list string)) (f o : string)
    (m : option string) (w : World C) (e : exn) :
  fst (run (prepare_croissant_builder json_loads C j rs f o m) w) = Raise e ->
  (exists text e0,
     m = Some text /\ text <> ""
     /\ json_loads text = Raise e0 /\ is_JSONDecodeError e0 = true
     /\ e = ValueError ("Error parsing mapping parameter: " ++ text)
              (Some e0))
  \/ (exists text,
        m = Some text /\ text <> ""
        /\ json_loads text = Raise e /\ is_JSONDecodeError e = false)
  \/ (exists kw w1, CroissantBuilder C kw w = (Raise e, w1))
  \/ (exists b w1 w2, download_and_prepare C b w1 = (Raise e, w2)).
Proof.
  destruct (run_outcomes json_loads C j rs f o m w)
    as [[e' [Hp ->]]|[v [_ [[e' [w1 [Hc ->]]]|[b [w1 [r [w2 [_ [Hd ->]]]]]]]]]];
    cbn [fst].
  - intros [= ->]. unfold run in Hp. destruct m as [[|c text]|].
    + rewrite parse_mapping_empty in Hp. discriminate.
    + rewrite parse_mapping_text in Hp by discriminate. cbv zeta in Hp.
      destruct (json_loads (String c text)) as [v|e0] eqn:Hl;
        [discriminate|].
      destruct (is_JSONDecodeError e0) eqn:He; injection Hp as <-.
      * left. exists (String c text), e0. repeat split; try assumption.
        discriminate.
      * right. left. exists (String c text). repeat split; try assumption.
        discriminate.
    + rewrite parse_mapping_absent in Hp. discriminate.
  - intros [= ->]. right. right. left. eauto.
  - destruct r as [[]|e'']; [discriminate|].
    intros [= ->]. do 3 right. eauto.
Qed.

(** Witness for X8: a mapping that parses and a constructor that
    raises. *)
Lemma failures_witness :
  let missing := PyError "FileNotFoundError" "/tmp/d.json" in
  fst (run (prepare_croissant_builder json.loads
              (scripted (Some missing) None) "/tmp/d.json" None "tfrecord"
              "/tmp/out" (Some "[]")) 0)
  = Raise missing
  /\ ((exists text e0,
         Some "[]" = Some text /\ text <> ""
         /\ json.loads text = Raise e0 /\ is_JSONDecodeError e0 = true
         /\ missing
            = ValueError ("Error parsing mapping parameter: " ++ text)
                (Some e0))
      \/ (exists text,
            Some "[]" = Some text /\ text <> ""
            /\ json.loads text = Raise missing
            /\ is_JSONDecodeError missing = false)
      \/ (exists kw w1,
            CroissantBuilder (scripted (Some missing) None) kw 0
            = (Raise missing, w1))
      \/ (exists b w1 w2,
            download_and_prepare (scripted (Some missing) None) b w1
            = (Raise missing, w2))).
Proof.
  intros missing.
  assert (H : fst (run (prepare_croissant_builder json.loads
                          (scripted (Some missing) None) "/tmp/d.json" None
                          "tfrecord" "/tmp/out" (Some "[]")) 0)
              = Raise missing) by reflexivity.
  split; [exact H|].
  exact (failures_have_four_origins json.loads
           (scripted (Some missing) None) "/tmp/d.json" None "tfrecord"
           "/tmp/out" (Some "[]") 0 missing H).
Defined.
